(** * serverless-rust: the build plugin of [src/index.js]

    A shallow embedding of the [RustPlugin] class: the JavaScript values
    the plugin reads from the service description, the host it runs in
    (operating system, process environment, global object, child
    processes, file system), the two build executors, the handler parser
    and the [build] hook, followed by the properties of the specification
    that are stated about them. *)

From Stdlib Require Import NArith Ascii.
From stdpp Require Import base option list strings gmap pretty.

(** ** JavaScript values

    The scalars that reach the plugin from the YAML service description
    and from destructuring: [undefined], [null], booleans and strings.
    Strings are sequences of code units below 256.  Numeric scalars are
    not part of this model. *)

Inductive value : Type :=
| VUndef
| VNull
| VBool (b : bool)
| VStr (s : string).

#[global] Instance value_eq_dec : EqDecision value.
Proof. solve_decision. Defined.

(** Plain objects holding scalars ([custom.rust], [func.rust],
    [func.package], the object returned by [cargoBinary]). *)
Abbreviation obj := (gmap string value).

Definition nonempty (s : string) : bool :=
  match s with EmptyString => false | String _ _ => true end.

(** ToBoolean. *)
Definition truthy (v : value) : bool :=
  match v with
  | VUndef | VNull => false
  | VBool b => b
  | VStr s => nonempty s
  end.

(** [a || b]. *)
Definition js_or (a b : value) : value := if truthy a then a else b.

(** ToString, as applied by template literals. *)
Definition to_str (v : value) : string :=
  match v with
  | VUndef => "undefined"
  | VNull => "null"
  | VBool true => "true"
  | VBool false => "false"
  | VStr s => s
  end.

(** [v == s] and [v === s] for a string constant [s]: on these scalars
    both hold exactly for the string [s] itself. *)
Definition eq_str (v : value) (s : string) : bool :=
  match v with VStr t => bool_decide (t = s) | _ => false end.

(** [v != undefined]: loose inequality, so [null] counts as [undefined]. *)
Definition neq_undefined (v : value) : bool :=
  match v with VUndef | VNull => false | _ => true end.

(** Property read [o.k]: a missing key reads as [undefined]. *)
Definition get (o : obj) (k : string) : value := default VUndef (o !! k).

(** [(o || {}).k] for [o] either [undefined] or an object. *)
Definition get_opt (o : option obj) (k : string) : value :=
  get (default ∅ o) k.

(** ** String.prototype.split *)

Definition cons_head (a : ascii) (l : list string) : list string :=
  match l with
  | [] => [String a ""]
  | h :: t => String a h :: t
  end.

(** [s.split(c)] for a one-character separator [c]. *)
Fixpoint split_on (c : ascii) (s : string) : list string :=
  match s with
  | EmptyString => [""]
  | String a s' =>
      if Ascii.eqb a c then "" :: split_on c s'
      else cons_head a (split_on c s')
  end.

(** The class [\s] on code units below 256: TAB, LF, VT, FF, CR, SPACE
    and NBSP. *)
Definition is_ws (a : ascii) : bool :=
  match a with
  | "009" | "010" | "011" | "012" | "013" | " " | "160" => true
  | _ => false
  end%char.

(** [s.split(/\s+/)]: [in_ws] tells that the previous code unit belonged
    to the separator being skipped. *)
Fixpoint split_ws_aux (in_ws : bool) (s : string) : list string :=
  match s with
  | EmptyString => [""]
  | String a s' =>
      if is_ws a then
        if in_ws then split_ws_aux true s' else "" :: split_ws_aux true s'
      else cons_head a (split_ws_aux false s')
  end.

Definition split_ws (s : string) : list string := split_ws_aux false s.

(** [arr.filter((i) => i)]. *)
Definition filter_truthy (l : list value) : list value :=
  List.filter truthy l.

(** ** The service description owned by the host framework *)

(** One entry of [service.functions]. *)
Record Func : Type := {
  handler : string;
  runtime : value;
  rust : option obj;        (* the per-function override block *)
  package : option obj;
}.

Record Service : Type := {
  provider_name : value;
  provider_runtime : value;
  service_functions : gmap string Func;
  (* what [getAllFunctions()] returns: the keys of [service.functions]
     in the host's enumeration order *)
  function_names : list string;
  custom_rust : option obj; (* [service.custom.rust] *)
  excludeDevDependencies : value;
}.

Definition set_provider_runtime (v : value) (s : Service) : Service :=
  {| provider_name := provider_name s;
     provider_runtime := v;
     service_functions := service_functions s;
     function_names := function_names s;
     custom_rust := custom_rust s;
     excludeDevDependencies := excludeDevDependencies s |}.

Definition set_function (name : string) (f : Func) (s : Service) : Service :=
  {| provider_name := provider_name s;
     provider_runtime := provider_runtime s;
     service_functions := <[name := f]> (service_functions s);
     function_names := function_names s;
     custom_rust := custom_rust s;
     excludeDevDependencies := excludeDevDependencies s |}.

Definition set_excludeDevDependencies (v : value) (s : Service) : Service :=
  {| provider_name := provider_name s;
     provider_runtime := provider_runtime s;
     service_functions := service_functions s;
     function_names := function_names s;
     custom_rust := custom_rust s;
     excludeDevDependencies := v |}.

Definition set_runtime (v : value) (f : Func) : Func :=
  {| handler := handler f; runtime := v; rust := rust f;
     package := package f |}.

Definition set_package (p : obj) (f : Func) : Func :=
  {| handler := handler f; runtime := runtime f; rust := rust f;
     package := Some p |}.

(** ** Exceptions, results of child processes, observable events *)

Inductive Exn : Type :=
| ReferenceError (ident : string)   (* "<ident> is not defined" *)
| TypeError (msg : string)
| Error (msg : string)              (* [new Error(msg)] *)
| SystemError (code : string)       (* thrown by [fs] *)
| ServerlessError (msg : string).   (* thrown by the host framework *)

(** What the plugin reads of the object [spawnSync] returns: [error] is
    an [Error] object (here its printed form) or [undefined]; [status]
    is the exit code, a natural number, or [null] when the child did not
    exit by itself. *)
Record SpawnResult : Type := {
  sr_error : option string;
  sr_status : option N;
}.

(** The three shapes of object an executor returns. *)
Inductive BuildResult : Type :=
| Spawned (r : SpawnResult)   (* the object [spawnSync] returned *)
| Packaged                    (* [{}] *)
| ZipFailed (err : Exn).      (* [{ err: err, status: 1 }] *)

(** [res.error] *)
Definition res_error (r : BuildResult) : option string :=
  match r with
  | Spawned s => sr_error s
  | Packaged | ZipFailed _ => None
  end.

(** [res.status]; [None] stands for [null] and for [undefined], neither
    of which is [> 0]. *)
Definition res_status (r : BuildResult) : option N :=
  match r with
  | Spawned s => sr_status s
  | Packaged => None
  | ZipFailed _ => Some 1%N
  end.

(** [status > 0] *)
Definition status_pos (st : option N) : bool :=
  match st with Some n => (0 <? n)%N | None => false end.

(** [res.error || res.status > 0] *)
Definition failed (r : BuildResult) : bool :=
  bool_decide (is_Some (res_error r)) || status_pos (res_status r).

(** One entry of an [AdmZip] archive as passed to [addFile]. *)
Record ZipEntry : Type := {
  entryName : string;
  content : string;
  comment : string;
  attr : N;
}.

(** What the plugin does to the outside world, in order. *)
Inductive Event : Type :=
| Log (msg : string)
| Spawn (cmd : string) (args : list value) (env : option (gmap string string))
| ReadFile (path : string)
| Mkdir (path : string)
| WriteFile (path : string) (data : list ZipEntry).

Definition is_spawn (e : Event) : bool :=
  match e with Spawn _ _ _ => true | _ => false end.

(** ** The host the plugin runs in

    Everything [index.js] imports or reads from its surroundings.  The
    outcome of an external call may depend on everything done before it,
    so each oracle receives the events so far.  [spawnSync] reports a
    failing child in the object it returns.  [mkdirSync] has no oracle:
    the one call is wrapped in [try {} catch {}] and its outcome is
    discarded. *)
Class Host : Type := {
  platform : string;                  (* [os.platform()] *)
  homedir : string;                   (* [os.homedir()] *)
  process_env : gmap string string;   (* [process.env] *)
  globalThis : obj;                   (* where free identifiers resolve *)
  path_join : list string -> string;
  path_resolve : string -> string;
  spawnSync :
    list Event -> string -> list value -> option (gmap string string) ->
    SpawnResult;
  readFileSync : list Event -> string -> Exn + string;
  writeFileSync : list Event -> string -> list ZipEntry -> option Exn;
}.

(** ** Computations: state passing with exceptions

    The state is the service description, which [build] mutates in place,
    and the events so far.  A [throw] keeps the state reached. *)
Record State : Type := {
  service : Service;
  events : list Event;
}.

Inductive Res (A : Type) : Type :=
| Ret (a : A)
| Throw (e : Exn).
Arguments Ret {A} a.
Arguments Throw {A} e.

Definition M (A : Type) : Type := State -> Res A * State.

#[global] Instance M_ret : MRet M := fun A a st => (Ret a, st).

#[global] Instance M_bind : MBind M := fun A B f m st =>
  match m st with
  | (Ret a, st') => f a st'
  | (Throw e, st') => (Throw e, st')
  end.

#[global] Instance M_throw : MThrow Exn M := fun A e st => (Throw e, st).

Definition emit (e : Event) : M unit := fun st =>
  (Ret tt, {| service := service st; events := events st ++ [e] |}).

Definition history : M (list Event) := fun st => (Ret (events st), st).

Definition get_service : M Service := fun st => (Ret (service st), st).

Definition modify_service (f : Service -> Service) : M unit := fun st =>
  (Ret tt, {| service := f (service st); events := events st |}).

(** [this.serverless.cli.log(msg)] *)
Definition cli_log (msg : string) : M unit := emit (Log msg).

(** A free identifier of the module: it is declared neither in the
    enclosing functions nor at module level, so it resolves on the global
    object, and reading it throws when the global object lacks it. *)
Definition free_ident `{Host} (x : string) : M value :=
  match globalThis !! x with
  | Some v => mret v
  | None => mthrow (ReferenceError x)
  end.

(** [String(err)] *)
Definition exn_str (e : Exn) : string :=
  match e with
  | ReferenceError x => "ReferenceError: " +:+ x +:+ " is not defined"
  | TypeError m => "TypeError: " +:+ m
  | Error m => if nonempty m then "Error: " +:+ m else "Error"
  | SystemError c => "Error: " +:+ c
  | ServerlessError m => "ServerlessError: " +:+ m
  end.

(** ** Constants of [index.js] *)

Definition DEFAULT_DOCKER_TAG : string := "0.2.7-rust-1.43.0".
Definition DEFAULT_DOCKER_IMAGE : string := "softprops/lambda-rust".
Definition RUST_RUNTIME : string := "rust".
Definition BASE_RUNTIME : string := "provided".
Definition MUSL_PLATFORMS : list string := ["darwin"; "windows"].

(** ** The plugin object *)

Record RustPlugin : Type := {
  options_function : option string;   (* [this.options.function] *)
  servicePath : value;
  custom : obj;
  dockerPath : string;
}.

(** The first argument of [Object.assign] in the constructor. *)
Definition custom_defaults : obj :=
  <["cargoFlags" := VStr ""]>
    (<["dockerTag" := VStr DEFAULT_DOCKER_TAG]>
       (<["dockerImage" := VStr DEFAULT_DOCKER_IMAGE]>
          (<["dockerless" := VBool false]> ∅))).

(** [Object.assign(target, source)]: every own key of [source] replaces
    the one of [target], whatever its value. *)
Definition Object_assign (target source : obj) : obj := source ∪ target.

(** The constructor, without the hook table: [config_servicePath] is
    [serverless.config.servicePath], [opt_function] is
    [options.function]. *)
Definition constructor `{Host} (config_servicePath : value)
    (opt_function : option string) : M RustPlugin :=
  svc ← get_service;
  let servicePath := js_or config_servicePath (VStr "") in
  let custom := Object_assign custom_defaults (default ∅ (custom_rust svc)) in
  match js_or (get custom "dockerPath") servicePath with
  | VStr p =>
      modify_service (set_excludeDevDependencies (VBool false));;
      mret {| options_function := opt_function;
              servicePath := servicePath;
              custom := custom;
              dockerPath := path_resolve p |}
  | _ => mthrow (TypeError "The paths[0] argument must be of type string")
  end.

(** [(funcArgs || {}).k || this.custom.k], the expression every tunable
    is read with. *)
Definition override_or_custom (this : RustPlugin) (funcArgs : option obj)
    (k : string) : value :=
  js_or (get_opt funcArgs k) (get (custom this) k).

(** [process.env[k] || dflt] *)
Definition env_or `{Host} (k dflt : string) : string :=
  match process_env !! k with
  | Some s => if nonempty s then s else dflt
  | None => dflt
  end.

Definition is_musl `{Host} : bool := bool_decide (platform ∈ MUSL_PLATFORMS).

(** [profile !== "dev" ? "release" : "debug"] *)
Definition profile_dir (profile : value) : string :=
  if negb (eq_str profile "dev") then "release" else "debug".

(** ** localBuild *)

(** [finalArgs] of [localBuild]; [split] exists on strings only. *)
Definition local_finalArgs `{Host} (this : RustPlugin)
    (funcArgs : option obj) (cargoPackage profile : value)
    : Exn + list value :=
  let defaultArgs := [VStr "build"; VStr "-p"; cargoPackage] in
  let profileArgs :=
    if negb (eq_str profile "dev") then [VStr "--release"] else [] in
  match js_or (override_or_custom this funcArgs "cargoFlags") (VStr "") with
  | VStr fl =>
      let cargoFlags := VStr <$> split_ws fl in
      let targetArgs :=
        if is_musl then [VStr "--target"; VStr "x86_64-unknown-linux-musl"]
        else [] in
      inr (filter_truthy
             (defaultArgs ++ profileArgs ++ targetArgs ++ cargoFlags))
  | _ => inl (TypeError "split is not a function")
  end.

Definition linker_env (rustflags linker : string) : gmap string string :=
  <["RUSTFLAGS" := rustflags +:+ " -Clinker=" +:+ linker]>
    (<["TARGET_CC" := linker]>
       (<["CC_x86_64_unknown_linux_musl" := linker]> ∅)).

Definition platformEnv `{Host} : gmap string string :=
  if bool_decide (platform = "darwin") then
    linker_env (env_or "RUSTFLAGS" "") "x86_64-linux-musl-gcc"
  else if bool_decide (platform = "windows") then
    linker_env (env_or "RUSTFLAGS" "") "rust-lld"
  else ∅.

(** [{ ...defaultEnv, ...platformEnv }]: the later spread wins. *)
Definition finalEnv `{Host} : gmap string string := platformEnv ∪ process_env.

Definition lift {A} (r : Exn + A) : M A :=
  match r with inl e => mthrow e | inr a => mret a end.

(** The part of [localBuild] after a successful toolchain run. *)
Definition package_binary `{Host} (binary profile : value) : M BuildResult :=
  let executable := "target" in
  let executable :=
    if is_musl then path_join [executable; "x86_64-unknown-linux-musl"]
    else executable in
  let executable := path_join [executable; profile_dir profile] in
  match binary with
  | VStr b =>
      let src := path_join [executable; b] in
      h ← history;
      emit (ReadFile src);;
      data ← lift (readFileSync h src);
      let zip := [{| entryName := "bootstrap"; content := data;
                     comment := ""; attr := 755%N |}] in
      let targetDir := path_join ["target"; "lambda"; profile_dir profile] in
      (* try { mkdirSync(targetDir, { recursive: true }) } catch {} *)
      emit (Mkdir targetDir);;
      let dst := path_join [targetDir; b +:+ ".zip"] in
      h ← history;
      emit (WriteFile dst zip);;
      match writeFileSync h dst zip with
      | None => mret Packaged
      | Some err =>
          cli_log ("Error zipping artifact " +:+ exn_str err);;
          mret (ZipFailed err)
      end
  | _ => mthrow (TypeError "The path argument must be of type string")
  end.

Definition localBuild `{Host} (this : RustPlugin) (funcArgs : option obj)
    (cargoPackage binary profile : value) : M BuildResult :=
  finalArgs ← lift (local_finalArgs this funcArgs cargoPackage profile);
  cli_log "Running local cargo build";;
  h ← history;
  let buildResult := spawnSync h "cargo" finalArgs (Some finalEnv) in
  emit (Spawn "cargo" finalArgs (Some finalEnv));;
  if failed (Spawned buildResult) then mret (Spawned buildResult)
  else package_binary binary profile.

(** ** dockerBuild *)

(** [defaultArgs] of [dockerBuild]. *)
Definition docker_defaultArgs `{Host} (this : RustPlugin) (binary : value)
    : list value :=
  let cargoHome := env_or "CARGO_HOME" (path_join [homedir; ".cargo"]) in
  let cargoRegistry := path_join [cargoHome; "registry"] in
  let cargoDownloads := path_join [cargoHome; "git"] in
  [VStr "run"; VStr "--rm"; VStr "-t";
   VStr "-e"; VStr ("BIN=" +:+ to_str binary);
   VStr "-v"; VStr (dockerPath this +:+ ":/code");
   VStr "-v"; VStr (cargoRegistry +:+ ":/root/.cargo/registry");
   VStr "-v"; VStr (cargoDownloads +:+ ":/root/.cargo/git")].

(** What [customArgs] starts as: [SLS_DOCKER_ARGS] split on the space
    character. *)
Definition docker_extraArgs `{Host} : list value :=
  VStr <$> split_on " " (env_or "SLS_DOCKER_ARGS" "").

(** The pair pushed for a truthy [profile]. *)
Definition docker_profileArgs (profile : value) : list value :=
  if truthy profile then [VStr "-e"; VStr ("PROFILE=" +:+ to_str profile)]
  else [].

(** [cargoFlags] after the package selector is appended. *)
Definition docker_cargoFlags (this : RustPlugin) (funcArgs : option obj)
    (cargoPackage : value) : value :=
  let cargoFlags := override_or_custom this funcArgs "cargoFlags" in
  if neq_undefined cargoPackage then
    if truthy cargoFlags then
      VStr (to_str cargoFlags +:+ " -p " +:+ to_str cargoPackage)
    else VStr (" -p " +:+ to_str cargoPackage)
  else cargoFlags.

(** The pair pushed for truthy [cargoFlags]. *)
Definition docker_flagArgs (this : RustPlugin) (funcArgs : option obj)
    (cargoPackage : value) : list value :=
  let cargoFlags := docker_cargoFlags this funcArgs cargoPackage in
  if truthy cargoFlags then
    [VStr "-e"; VStr ("CARGO_FLAGS=" +:+ to_str cargoFlags)]
  else [].

(** [`${dockerImage}:${dockerTag}`] *)
Definition docker_imageRef (this : RustPlugin) (funcArgs : option obj)
    : string :=
  let dockerTag := override_or_custom this funcArgs "dockerTag" in
  let dockerImage := override_or_custom this funcArgs "dockerImage" in
  to_str dockerImage +:+ ":" +:+ to_str dockerTag.

(** [finalArgs] of [dockerBuild]. *)
Definition docker_finalArgs `{Host} (this : RustPlugin)
    (funcArgs : option obj) (cargoPackage binary profile : value)
    : list value :=
  let customArgs :=
    docker_extraArgs ++ docker_profileArgs profile
      ++ docker_flagArgs this funcArgs cargoPackage in
  filter_truthy
    (docker_defaultArgs this binary ++ customArgs
       ++ [VStr (docker_imageRef this funcArgs)]).

Definition dockerBuild `{Host} (this : RustPlugin) (funcArgs : option obj)
    (cargoPackage binary profile : value) : M BuildResult :=
  let dockerCLI := env_or "SLS_DOCKER_CLI" "docker" in
  let finalArgs := docker_finalArgs this funcArgs cargoPackage binary profile in
  cli_log "Running containerized build";;
  h ← history;
  emit (Spawn dockerCLI finalArgs None);;
  mret (Spawned (spawnSync h dockerCLI finalArgs None)).

(** ** functions, cargoBinary, buildLocally *)

Definition functions (this : RustPlugin) : M (list string) :=
  match options_function this with
  | Some n =>
      if nonempty n then mret [n]
      else svc ← get_service; mret (function_names svc)
  | None => svc ← get_service; mret (function_names svc)
  end.

(** [service.getFunction(name)] of the host framework, which throws for
    a name the service does not declare. *)
Definition getFunction (name : string) : M Func :=
  svc ← get_service;
  match service_functions svc !! name with
  | Some f => mret f
  | None =>
      mthrow (ServerlessError
                ("Function " +:+ name +:+ " doesn't exist in this Service"))
  end.

(** Element [i] of an array of strings, as array destructuring reads
    it. *)
Definition element (l : list string) (i : nat) : value :=
  from_option VStr VUndef (l !! i).

(** [cargoBinary(func)]: the object [{ cargoPackage, binary }]. *)
Definition cargoBinary (func : Func) : obj :=
  let parts := split_on "." (handler func) in
  let cargoPackage := element parts 0 in
  let binary := element parts 1 in
  let binary := if neq_undefined binary then binary else cargoPackage in
  <["cargoPackage" := cargoPackage]> (<["binary" := binary]> ∅).

Definition buildLocally (this : RustPlugin) (func : Func) : value :=
  override_or_custom this (rust func) "dockerless".

(** ** build *)

(** [`${res.error}`] and [`${res.status}`] *)
Definition error_str (r : BuildResult) : string :=
  default "undefined" (res_error r).

Definition status_str (r : BuildResult) : string :=
  match r with
  | Spawned s => from_option pretty "null" (sr_status s)
  | Packaged => "undefined"
  | ZipFailed _ => "1"
  end.

(** [new Error(res.error)]: an undefined message gives the empty one. *)
Definition build_error (r : BuildResult) : Exn :=
  Error (default "" (res_error r)).

(** [path.join(this.dockerPath, `target/lambda/...`, `${binary}.zip`)] *)
Definition artifactPath `{Host} (this : RustPlugin) (binary profile : value)
    : string :=
  path_join [dockerPath this;
             "target/lambda/" +:+
               (if eq_str profile "dev" then "debug" else "release");
             to_str binary +:+ ".zip"].

(** The conditional expression of lines 233-235: the condition first,
    then the arguments of the chosen call from left to right, the second
    of which is the free identifier [cargoPackage]. *)
Definition run_executor `{Host} (this : RustPlugin) (func : Func)
    (binary profile : value) : M BuildResult :=
  if truthy (buildLocally this func) then
    cargoPackage ← free_ident "cargoPackage";
    localBuild this (rust func) cargoPackage binary profile
  else
    cargoPackage ← free_ident "cargoPackage";
    dockerBuild this (rust func) cargoPackage binary profile.

(** Lines 251-262, on the function object as [getFunction] gave it. *)
Definition mark_built `{Host} (this : RustPlugin) (binary profile : value)
    (func : Func) : Func :=
  let func :=
    set_package
      (<["artifact" := VStr (artifactPath this binary profile)]>
         (default ∅ (package func))) func in
  if eq_str (runtime func) RUST_RUNTIME then set_runtime (VStr BASE_RUNTIME) func
  else func.

(** The callback of [forEach]; its result is [rustFunctionsFound]. *)
Definition build_function `{Host} (this : RustPlugin) (funcName : string)
    (rustFunctionsFound : bool) : M bool :=
  func ← getFunction funcName;
  svc ← get_service;
  let runtime := js_or (runtime func) (provider_runtime svc) in
  if negb (eq_str runtime RUST_RUNTIME) then mret rustFunctionsFound
  else
    (* const { cargoBinary, binary } = this.cargoBinary(func) *)
    let parsed := cargoBinary func in
    let cargoBinary := get parsed "cargoBinary" in
    let binary := get parsed "binary" in
    cli_log ("Building Rust " +:+ handler func +:+ " func...");;
    let profile := override_or_custom this (rust func) "profile" in
    res ← run_executor this func binary profile;
    if failed res then
      cli_log ("Rust build encountered an error: " +:+ error_str res
                 +:+ " " +:+ status_str res +:+ ".");;
      mthrow (build_error res)
    else
      modify_service
        (set_function funcName (mark_built this binary profile func));;
      mret true.

Fixpoint forEach (callback : string -> bool -> M bool) (names : list string)
    (found : bool) : M bool :=
  match names with
  | [] => mret found
  | n :: rest => found' ← callback n found; forEach callback rest found'
  end.

(** Lines 264-266: the service-wide default runtime. *)
Definition rewrite_default_runtime (svc : Service) : Service :=
  if eq_str (provider_runtime svc) RUST_RUNTIME
  then set_provider_runtime (VStr BASE_RUNTIME) svc
  else svc.

Definition no_rust_functions : Exn :=
  Error ("Error: no Rust functions found. "
           +:+ "Use 'runtime: " +:+ RUST_RUNTIME +:+ "' in global or "
           +:+ "function configuration to use this plugin.").

Definition build `{Host} (this : RustPlugin) : M unit :=
  svc ← get_service;
  if negb (eq_str (provider_name svc) "aws") then mret tt
  else
    names ← functions this;
    rustFunctionsFound ← forEach (build_function this) names false;
    modify_service rewrite_default_runtime;;
    if negb rustFunctionsFound then mthrow no_rust_functions else mret tt.

(** ** Vocabulary of the properties *)

(** The names one pass enumerates: what [functions()] returns. *)
Definition targets (this : RustPlugin) (svc : Service) : list string :=
  match options_function this with
  | Some n => if nonempty n then [n] else function_names svc
  | None => function_names svc
  end.

(** [func.runtime || service.provider.runtime] *)
Definition effective_runtime (svc : Service) (func : Func) : value :=
  js_or (runtime func) (provider_runtime svc).

(** The function is one the loop builds. *)
Definition is_rust (svc : Service) (func : Func) : bool :=
  eq_str (effective_runtime svc func) RUST_RUNTIME.

(** The name denotes a function of the service whose effective runtime
    is [b]-ly the supported one. *)
Definition target_is_rust (svc : Service) (b : bool) (name : string) : Prop :=
  exists func, service_functions svc !! name = Some func /\ is_rust svc func = b.

(** The unit and the binary name [cargoBinary] yields. *)
Definition parsed_unit (func : Func) : value :=
  get (cargoBinary func) "cargoPackage".

Definition parsed_binary (func : Func) : value :=
  get (cargoBinary func) "binary".

(** The binary name is a non-empty string. *)
Definition binary_nonempty (func : Func) : Prop :=
  exists b, parsed_binary func = VStr b /\ nonempty b = true.

Fixpoint has_sep (s : string) : bool :=
  match s with
  | EmptyString => false
  | String a s' => Ascii.eqb a "." || has_sep s'
  end.

(** The non-empty tokens of [s.split(/\s+/)]. *)
Definition ws_tokens (s : string) : list string :=
  List.filter nonempty (split_ws s).

(** The non-empty tokens of [s.split(" ")]. *)
Definition space_tokens (s : string) : list string :=
  List.filter nonempty (split_on " " s).

(** The computation leaves the service alone and only adds events. *)
Definition only_emits {A} (m : M A) : Prop :=
  forall st r st', m st = (r, st') ->
    service st' = service st /\ exists evs, events st' = events st ++ evs.

(** The only whitespace in [s] is the space character. *)
Fixpoint spaces_only (s : string) : bool :=
  match s with
  | EmptyString => true
  | String a s' => (negb (is_ws a) || Ascii.eqb a " ") && spaces_only s'
  end.

(** The binary [package_binary] reads and the archive it writes. *)
Definition built_binary `{Host} (b : string) (profile : value) : string :=
  path_join
    [path_join
       [if is_musl then path_join ["target"; "x86_64-unknown-linux-musl"]
        else "target";
        profile_dir profile];
     b].

Definition archive `{Host} (b : string) (profile : value) : string :=
  path_join [path_join ["target"; "lambda"; profile_dir profile]; b +:+ ".zip"].

Definition log_event (msg : string) (st : State) : State :=
  {| service := service st; events := events st ++ [Log msg] |}.

Definition building_msg (func : Func) : string :=
  "Building Rust " +:+ handler func +:+ " func...".

Definition failure_msg (res : BuildResult) : string :=
  "Rust build encountered an error: " +:+ error_str res
    +:+ " " +:+ status_str res +:+ ".".

(** *** The handler parser in the words of the specification

    Split at the first separator; without a binary segment the binary
    name is the unit; [None] is the MalformedHandler condition, raised
    exactly for an empty unit segment. *)
Fixpoint split_first (s : string) : string * option string :=
  match s with
  | EmptyString => ("", None)
  | String a s' =>
      if Ascii.eqb a "." then ("", Some s')
      else let (u, r) := split_first s' in (String a u, r)
  end.

Definition HandlerParser_spec (h : string) : option (string * string) :=
  let (u, r) := split_first h in
  if nonempty u then Some (u, default u r) else None.

(** [cargoBinary] does at [func] what the specification's parser does:
    the parser accepts the handler and [cargoBinary] returns its pair.
    ([cargoBinary] contains no [throw] and [split] is defined on every
    string, so it returns an object on every handler.) *)
Definition parses_as_spec (func : Func) : Prop :=
  exists u b, HandlerParser_spec (handler func) = Some (u, b)
    /\ parsed_unit func = VStr u /\ parsed_binary func = VStr b.

(** *** The resolver in the words of the specification

    The override when the override block supplies the key, otherwise the
    global value when the global block supplies it, otherwise the
    built-in default. *)
Definition builtin_default (k : string) : value := get custom_defaults k.

Definition ConfigResolver_spec (override global : obj) (k : string) : value :=
  match override !! k with
  | Some v => v
  | None =>
      match global !! k with
      | Some g => g
      | None => builtin_default k
      end
  end.

Definition tunables : list string :=
  ["cargoFlags"; "dockerTag"; "dockerImage"; "dockerless"; "profile"].

(** ** Concrete hosts and services *)

Definition join_slash (l : list string) : string :=
  match l with
  | [] => "."
  | h :: t => fold_left (fun acc x => acc +:+ "/" +:+ x) t h
  end.

Definition exit_with (code : N) : SpawnResult :=
  {| sr_error := None; sr_status := Some code |}.

(** A Linux host with an empty environment and a pristine global object
    on which every child exits with [code], and reading a file gives
    [read]. *)
Definition linux_host (globals : obj) (env : gmap string string) (code : N)
    (read : Exn + string) : Host :=
  {| platform := "linux";
     homedir := "/home/dev";
     process_env := env;
     globalThis := globals;
     path_join := join_slash;
     path_resolve := fun p => p;
     spawnSync := fun _ _ _ _ => exit_with code;
     readFileSync := fun _ _ => read;
     writeFileSync := fun _ _ _ => None |}.

Definition plain_host : Host := linux_host ∅ ∅ 0%N (inr "ELF").

(** A host on which some other module has leaked a global
    [cargoPackage]. *)
Definition leaky_host (code : N) : Host :=
  linux_host (<["cargoPackage" := VStr "leaked"]> ∅) ∅ code (inr "ELF").

(** A host on which the toolchain succeeds but left no binary where
    [localBuild] looks for it. *)
Definition missing_binary_host : Host :=
  linux_host ∅ ∅ 0%N (inl (SystemError "ENOENT")).

(** A host whose [SLS_DOCKER_ARGS] separates its two tokens by a TAB. *)
Definition tab_args_host : Host :=
  linux_host ∅ (<["SLS_DOCKER_ARGS" := "-e" +:+ String "009" "FOO=1"]> ∅)
    0%N (inr "ELF").

Definition hello : Func :=
  {| handler := "hello"; runtime := VStr "rust"; rust := None;
     package := None |}.

Definition world : Func :=
  {| handler := "pkg.world"; runtime := VUndef; rust := None;
     package := None |}.

Definition with_handler (h : string) : Func :=
  {| handler := h; runtime := VStr "rust"; rust := None; package := None |}.

Definition node_fn : Func :=
  {| handler := "index.handler"; runtime := VStr "nodejs12.x"; rust := None;
     package := None |}.

Definition mk_service (provider rt : value) (fs : list (string * Func))
    (global : option obj) : Service :=
  {| provider_name := provider;
     provider_runtime := rt;
     service_functions := list_to_map fs;
     function_names := fs.*1;
     custom_rust := global;
     excludeDevDependencies := VUndef |}.

Definition start (svc : Service) : State := {| service := svc; events := [] |}.

(** The plugin the constructor builds for a service rooted at [/srv]
    whose global block is [global]. *)
Definition plugin (global : obj) : RustPlugin :=
  {| options_function := None;
     servicePath := VStr "/srv";
     custom := Object_assign custom_defaults global;
     dockerPath := "/srv" |}.

(** ** includeInvokeHook and the hook table *)

(** The digit a code unit stands for in [radix], if any: [0]-[9], then
    the letters of either case from ten on. *)
Definition digit_value (radix : N) (c : ascii) : option N :=
  let n := N_of_ascii c in
  let d :=
    if (48 <=? n)%N && (n <=? 57)%N then Some (n - 48)%N
    else if (97 <=? n)%N && (n <=? 122)%N then Some (n - 87)%N
    else if (65 <=? n)%N && (n <=? 90)%N then Some (n - 55)%N
    else None in
  match d with
  | Some d => if (d <? radix)%N then Some d else None
  | None => None
  end.

(** The value of the longest prefix of digits; [acc] is [None] until a
    digit has been read. *)
Fixpoint parse_digits (radix : N) (acc : option N) (s : string) : option N :=
  match s with
  | EmptyString => acc
  | String c s' =>
      match digit_value radix c with
      | Some d => parse_digits radix (Some (radix * default 0 acc + d)%N) s'
      | None => acc
      end
  end.

Fixpoint trim_start (s : string) : string :=
  match s with
  | EmptyString => ""
  | String c s' => if is_ws c then trim_start s' else s
  end.

(** [parseInt(v)] without a radix: leading whitespace, a sign, the prefix
    [0x] or [0X] for radix 16, then digits; [None] is [NaN].  The result
    is the exact integer: [includeInvokeHook] only compares it with 1, 38
    and 40, which the rounding of large values to doubles cannot affect. *)
Definition parseInt (v : value) : option Z :=
  let s := trim_start (to_str v) in
  let '(sign, s) :=
    match s with
    | String c s' =>
        if Ascii.eqb c "-" then ((-1)%Z, s')
        else if Ascii.eqb c "+" then (1%Z, s')
        else (1%Z, s)
    | EmptyString => (1%Z, s)
    end in
  let '(radix, s) :=
    match s with
    | String c (String x s') =>
        if Ascii.eqb c "0" && (Ascii.eqb x "x" || Ascii.eqb x "X")
        then (16%N, s')
        else (10%N, s)
    | _ => (10%N, s)
    end in
  match parse_digits radix None s with
  | Some n => Some (sign * Z.of_N n)%Z
  | None => None
  end.

(** [a === n], [a >= n] and [a < n] for a number [a] that may be [NaN]. *)
Definition num_eq (a : option Z) (n : Z) : bool :=
  match a with Some x => (x =? n)%Z | None => false end.

Definition num_ge (a : option Z) (n : Z) : bool :=
  match a with Some x => (n <=? x)%Z | None => false end.

Definition num_lt (a : option Z) (n : Z) : bool :=
  match a with Some x => (x <? n)%Z | None => false end.

Definition includeInvokeHook (serverlessVersion : string) : bool :=
  let parts := split_on "." serverlessVersion in
  let major := element parts 0 in
  let minor := element parts 1 in
  let majorVersion := parseInt major in
  let minorVersion := parseInt minor in
  num_eq majorVersion 1 && num_ge minorVersion 38 && num_lt minorVersion 40.

(** The keys of [this.hooks] after the constructor, for
    [serverless.version]; each of them is bound to [build]. *)
Definition hooks (version : string) : list string :=
  ["before:package:createDeploymentArtifacts";
   "before:deploy:function:packageFunction"]
    ++ (if includeInvokeHook version then ["before:invoke:local:invoke"]
        else []).

(** ** Vocabulary of the further properties *)

(** Every code unit is a decimal digit. *)
Definition is_decimal (c : ascii) : bool :=
  (48 <=? N_of_ascii c)%N && (N_of_ascii c <=? 57)%N.

Fixpoint all_decimal (s : string) : bool :=
  match s with
  | EmptyString => true
  | String c s' => is_decimal c && all_decimal s'
  end.

(** The default runtime once lines 264-266 have run. *)
Definition runtime_after (rt : value) : value :=
  if eq_str rt RUST_RUNTIME then VStr BASE_RUNTIME else rt.

(** Under the default runtime [rt], rewritten, the function is none the
    loop would build. *)
Definition settled (rt : value) (f : Func) : bool :=
  negb (eq_str (js_or (runtime f) (runtime_after rt)) RUST_RUNTIME).

(** Everything of the service but its functions and default runtime. *)
Definition same_frame (s s' : Service) : Prop :=
  provider_name s' = provider_name s
  /\ function_names s' = function_names s
  /\ custom_rust s' = custom_rust s
  /\ excludeDevDependencies s' = excludeDevDependencies s.

(** A non-empty string. *)
Definition is_arg (v : value) : Prop :=
  exists s, v = VStr s /\ nonempty s = true.


(** A Linux host with a leaked global [cargoPackage] whose children all
    end as [r], on which files read as [read] and are written with
    outcome [write]. *)
Definition leaky_host_with (r : SpawnResult) (read : Exn + string)
    (write : option Exn) : Host :=
  {| platform := "linux";
     homedir := "/home/dev";
     process_env := ∅;
     globalThis := <["cargoPackage" := VStr "leaked"]> ∅;
     path_join := join_slash;
     path_resolve := fun p => p;
     spawnSync := fun _ _ _ _ => r;
     readFileSync := fun _ _ => read;
     writeFileSync := fun _ _ _ => write |}.

(** A macOS host with [RUSTFLAGS] set. *)
Definition darwin_host : Host :=
  {| platform := "darwin";
     homedir := "/Users/dev";
     process_env := <["RUSTFLAGS" := "-Dwarnings"]> (<["HOME" := "/Users/dev"]> ∅);
     globalThis := ∅;
     path_join := join_slash;
     path_resolve := fun p => p;
     spawnSync := fun _ _ _ _ => exit_with 0;
     readFileSync := fun _ _ => inr "ELF";
     writeFileSync := fun _ _ _ => None |}.

(** * Properties *)

(** ** Strings and splitting *)

Example split_on_examples :
  split_on "." "a.b.c" = ["a"; "b"; "c"]
  /\ split_on "." "" = [""]
  /\ split_on "." "a." = ["a"; ""]
  /\ split_on " " "-e  FOO=1" = ["-e"; ""; "FOO=1"].
Proof. repeat split; reflexivity. Qed.

Example split_ws_examples :
  split_ws " a  b " = [""; "a"; "b"; ""]
  /\ split_ws "" = [""]
  /\ split_ws "--features  x" = ["--features"; "x"].
Proof. repeat split; reflexivity. Qed.

Lemma app_cons (c : ascii) (s t : string) :
  String c s +:+ t = String c (s +:+ t).
Proof. reflexivity. Qed.

Lemma app_nil (t : string) : "" +:+ t = t.
Proof. reflexivity. Qed.

Lemma nonempty_app (s t : string) :
  nonempty (s +:+ t) = nonempty s || nonempty t.
Proof. destruct s; reflexivity. Qed.

Lemma split_first_no_sep (a : string) :
  has_sep a = false -> split_first a = (a, None).
Proof.
  induction a as [|c a IH]; cbn; [done|].
  intros [Hc Ha]%orb_false_elim. rewrite Hc, (IH Ha). done.
Qed.

Lemma split_first_sep (a r : string) :
  has_sep a = false -> split_first (a +:+ "." +:+ r) = (a, Some r).
Proof.
  induction a as [|c a IH]; [done|].
  cbn [has_sep]. intros [Hc Ha]%orb_false_elim.
  rewrite app_cons. cbn [split_first]. rewrite Hc, (IH Ha). done.
Qed.

(** Every string is its first segment, followed by a separator and a
    rest if it has a separator at all. *)
Lemma split_first_shape (h : string) :
  has_sep (split_first h).1 = false
  /\ h = match (split_first h).2 with
         | None => (split_first h).1
         | Some r => (split_first h).1 +:+ "." +:+ r
         end.
Proof.
  induction h as [|c h [IH1 IH2]]; cbn; [done|].
  destruct (Ascii.eqb c ".") eqn:Hc.
  - apply Ascii.eqb_eq in Hc as ->. done.
  - destruct (split_first h) as [u [r|]]; cbn in *;
      rewrite Hc, IH1; split; try done; by rewrite IH2 at 1.
Qed.

(** [split] cuts at every separator: its head is the first segment. *)
Lemma split_on_split_first (h : string) :
  split_on "." h =
    match split_first h with
    | (u, None) => [u]
    | (u, Some r) => u :: split_on "." r
    end.
Proof.
  induction h as [|c h IH]; cbn; [done|].
  destruct (Ascii.eqb c "."); [done|].
  rewrite IH. by destruct (split_first h) as [u [r|]].
Qed.

Lemma split_on_head (r : string) :
  exists t, split_on "." r = (split_first r).1 :: t.
Proof.
  rewrite split_on_split_first.
  destruct (split_first r) as [u [r'|]]; eauto.
Qed.

(** ** cargoBinary *)

Lemma parsed_unit_eq (func : Func) :
  parsed_unit func = element (split_on "." (handler func)) 0.
Proof. unfold parsed_unit, cargoBinary, get. by rewrite lookup_insert_eq. Qed.

Lemma parsed_binary_eq (func : Func) :
  parsed_binary func =
    let parts := split_on "." (handler func) in
    if neq_undefined (element parts 1) then element parts 1
    else element parts 0.
Proof.
  unfold parsed_binary, cargoBinary, get.
  rewrite lookup_insert_ne by done. by rewrite lookup_insert_eq.
Qed.

(** The destructuring of line 228 reads a key the object lacks. *)
Lemma cargoBinary_has_no_cargoBinary (func : Func) :
  get (cargoBinary func) "cargoBinary" = VUndef.
Proof.
  unfold cargoBinary, get.
  rewrite !lookup_insert_ne by done. by rewrite lookup_empty.
Qed.

(** The pair in terms of the first separator: the unit is the first
    segment; the binary is the first segment of what follows the first
    separator, or the unit when there is no separator. *)
Lemma cargoBinary_split_first (func : Func) :
  parsed_unit func = VStr (split_first (handler func)).1
  /\ parsed_binary func =
       VStr match (split_first (handler func)).2 with
            | None => (split_first (handler func)).1
            | Some r => (split_first r).1
            end.
Proof.
  rewrite parsed_unit_eq, parsed_binary_eq, split_on_split_first.
  destruct (split_first (handler func)) as [u [r|]]; cbn; [|done].
  destruct (split_on_head r) as [t ->]. done.
Qed.

(** C2, as stated, fails on the empty handler: the specification's
    parser raises MalformedHandler there, [cargoBinary] returns the pair
    of two empty strings. *)
Lemma cargoBinary_empty_handler_not_rejected :
  HandlerParser_spec "" = None
  /\ parsed_unit (with_handler "") = VStr ""
  /\ parsed_binary (with_handler "") = VStr ""
  /\ ~ parses_as_spec (with_handler "").
Proof.
  repeat split; try reflexivity.
  intros (u & b & Hspec & _). discriminate Hspec.
Qed.

(** The split is at every separator, not at the first one only. *)
Lemma cargoBinary_drops_third_segment :
  HandlerParser_spec "a.b.c" = Some ("a", "b.c")
  /\ parsed_binary (with_handler "a.b.c") = VStr "b".
Proof. split; reflexivity. Qed.

(** C2, amended: [cargoBinary] cuts the handler at every separator and
    keeps the first two segments.  For separator-free [a] and [b], the
    handler [a.b] yields unit [a] and binary [b], also when further
    segments follow; the handler [a] yields unit [a] and binary [a], and
    this includes the empty handler, for which both are empty. *)
Theorem cargoBinary_first_two_segments (a b : string) :
  has_sep a = false -> has_sep b = false ->
  (forall func, handler func = a +:+ "." +:+ b ->
     parsed_unit func = VStr a /\ parsed_binary func = VStr b)
  /\ (forall func rest, handler func = a +:+ "." +:+ b +:+ "." +:+ rest ->
        parsed_unit func = VStr a /\ parsed_binary func = VStr b)
  /\ (forall func, handler func = a ->
        parsed_unit func = VStr a /\ parsed_binary func = VStr a).
Proof.
  intros Ha Hb.
  split; [intros func Hh|split; [intros func rest Hh|intros func Hh]];
    destruct (cargoBinary_split_first func) as [-> ->]; rewrite Hh.
  all: rewrite ?split_first_sep by done; cbn [fst snd].
  all: rewrite ?split_first_sep, ?split_first_no_sep by done; done.
Qed.

Lemma cargoBinary_first_two_segments_witness :
  (parsed_unit world = VStr "pkg" /\ parsed_binary world = VStr "world")
  /\ (parsed_unit (with_handler "") = VStr ""
      /\ parsed_binary (with_handler "") = VStr "").
Proof.
  split.
  - apply (cargoBinary_first_two_segments "pkg" "world"); reflexivity.
  - apply (cargoBinary_first_two_segments "" ""); reflexivity.
Defined.

(** C9, as stated, fails: the empty handler is accepted and its binary
    name is the empty string; so is the one of [a.]. *)
Lemma cargoBinary_empty_binary :
  ~ binary_nonempty (with_handler "") /\ ~ binary_nonempty (with_handler "a.").
Proof.
  split; intros (b & Hb & Hne); vm_compute in Hb;
    injection Hb as <-; discriminate Hne.
Qed.

Lemma nonempty_first_segment (r : string) :
  nonempty (split_first r).1 = true <->
  exists c r', r = String c r' /\ c <> "."%char.
Proof.
  destruct r as [|c r]; cbn.
  - split; [done|]. by intros (c & r' & ? & _).
  - destruct (Ascii.eqb c ".") eqn:Hc.
    + apply Ascii.eqb_eq in Hc as ->. split; [done|].
      intros (c & r' & [= <- <-] & Hne). done.
    + apply Ascii.eqb_neq in Hc.
      destruct (split_first r) as [u o]; cbn. split; [|done].
      intros _. eauto.
Qed.

(** C9, amended: [cargoBinary] accepts every handler string and its
    binary name is a string; that string is non-empty exactly when the
    handler is non-empty and its first separator, if it has one, is
    followed by a character other than the separator. *)
Theorem cargoBinary_binary_nonempty_iff (func : Func) :
  binary_nonempty func <->
  nonempty (handler func) = true
  /\ (forall a r, has_sep a = false -> handler func = a +:+ "." +:+ r ->
        exists c r', r = String c r' /\ c <> "."%char).
Proof.
  unfold binary_nonempty.
  destruct (cargoBinary_split_first func) as [_ ->].
  destruct (split_first_shape (handler func)) as [Hu Hh].
  destruct (split_first (handler func)) as [u [r|]] eqn:Hsf; cbn in *.
  - split.
    + intros (b & [= <-] & Hne). split.
      * rewrite Hh, !nonempty_app. cbn. by rewrite orb_true_r.
      * intros a r0 Ha Heq. rewrite Heq, split_first_sep in Hsf by done.
        injection Hsf as -> ->. by apply nonempty_first_segment.
    + intros [_ Hall]. eexists; split; [done|].
      apply nonempty_first_segment. by apply (Hall u).
  - split.
    + intros (b & [= <-] & Hne). split; [by rewrite Hh|].
      intros a r0 Ha Heq. rewrite Heq, split_first_sep in Hsf by done.
      discriminate Hsf.
    + intros [Hne _]. exists u. by rewrite <- Hh.
Qed.

(** ** Running computations *)

Ltac run :=
  unfold mbind, M_bind, mret, M_ret, mthrow, M_throw, lift,
    cli_log, emit, history, get_service, modify_service; cbn.

Lemma bind_ret {A B} (m : M A) (f : A -> M B) (st st' : State) (a : A) :
  m st = (Ret a, st') -> (m ≫= f) st = f a st'.
Proof. intros E. unfold mbind, M_bind. by rewrite E. Qed.

Lemma bind_throw {A B} (m : M A) (f : A -> M B) (st st' : State) (e : Exn) :
  m st = (Throw e, st') -> (m ≫= f) st = (Throw e, st').
Proof. intros E. unfold mbind, M_bind. by rewrite E. Qed.

Lemma functions_targets (this : RustPlugin) (st : State) :
  functions this st = (Ret (targets this (service st)), st).
Proof.
  unfold functions, targets.
  destruct (options_function this) as [n|]; [destruct (nonempty n)|];
    reflexivity.
Qed.

Lemma getFunction_found (name : string) (func : Func) (st : State) :
  service_functions (service st) !! name = Some func ->
  getFunction name st = (Ret func, st).
Proof. intros E. unfold getFunction. run. by rewrite E. Qed.

(** ** ConfigResolver *)

Lemma constructor_custom `{Host} sp opt st this st' :
  constructor sp opt st = (Ret this, st') ->
  custom this =
    Object_assign custom_defaults (default ∅ (custom_rust (service st))).
Proof.
  unfold constructor. run.
  destruct (js_or _ _); intros [= <- _]; reflexivity.
Qed.

Lemma get_Object_assign (target source : obj) (k : string) :
  get (Object_assign target source) k =
    match source !! k with
    | Some v => v
    | None => get target k
    end.
Proof.
  unfold get, Object_assign. rewrite lookup_union.
  by destruct (source !! k), (target !! k).
Qed.

(** C3, as stated, fails: a function that overrides [dockerless] with
    [false] under a global [dockerless: true] is still built locally. *)
Lemma falsy_override_loses :
  let global : obj := <["dockerless" := VBool true]> ∅ in
  let override : obj := <["dockerless" := VBool false]> ∅ in
  let func := {| handler := "hello"; runtime := VStr "rust";
                 rust := Some override; package := None |} in
  let svc := mk_service (VStr "aws") VUndef [("hello", func)] (Some global) in
  (constructor (H := plain_host) (VStr "/srv") None (start svc)).1
    = Ret (plugin global)
  /\ ConfigResolver_spec override global "dockerless" = VBool false
  /\ buildLocally (plugin global) func = VBool true.
Proof. repeat split; vm_compute; reflexivity. Qed.

(** C3, amended: for every key, and so for each of the five tunables,
    the value read for a function is the override when the override block
    gives the key a truthy value, otherwise the global value when the
    global block has the key (whatever its value), otherwise the built-in
    default; [profile] has no built-in default. *)
Theorem override_or_custom_precedence `{Host} sp opt st this st' :
  constructor sp opt st = (Ret this, st') ->
  (forall funcArgs k,
     override_or_custom this funcArgs k =
       if truthy (get_opt funcArgs k) then get_opt funcArgs k
       else match default ∅ (custom_rust (service st)) !! k with
            | Some g => g
            | None => builtin_default k
            end)
  /\ builtin_default <$> tunables =
       [VStr ""; VStr DEFAULT_DOCKER_TAG; VStr DEFAULT_DOCKER_IMAGE;
        VBool false; VUndef].
Proof.
  intros Hc. split; [|reflexivity].
  intros funcArgs k. unfold override_or_custom, js_or.
  rewrite (constructor_custom _ _ _ _ _ Hc), get_Object_assign. done.
Qed.

Lemma override_or_custom_precedence_witness :
  let global : obj := <["dockerTag" := VStr "latest"]> ∅ in
  let svc := mk_service (VStr "aws") VUndef [("hello", hello)] (Some global) in
  constructor (H := plain_host) (VStr "/srv") None (start svc)
    = (Ret (plugin global),
       start (set_excludeDevDependencies (VBool false) svc))
  /\ (forall funcArgs k,
        override_or_custom (plugin global) funcArgs k =
          if truthy (get_opt funcArgs k) then get_opt funcArgs k
          else match global !! k with
               | Some g => g
               | None => builtin_default k
               end).
Proof.
  intros global svc.
  assert (constructor (H := plain_host) (VStr "/srv") None (start svc)
          = (Ret (plugin global),
             start (set_excludeDevDependencies (VBool false) svc))) as Hc
    by (vm_compute; reflexivity).
  split; [exact Hc|].
  exact (proj1 (override_or_custom_precedence (H := plain_host) _ _ _ _ _ Hc)).
Defined.

(** ** The loop of build *)

Lemma build_function_skip `{Host} this name found st func :
  service_functions (service st) !! name = Some func ->
  is_rust (service st) func = false ->
  build_function this name found st = (Ret found, st).
Proof.
  intros Hf Hr. unfold build_function.
  rewrite (bind_ret _ _ _ _ _ (getFunction_found _ _ _ Hf)). run.
  change (eq_str (js_or (runtime func) (provider_runtime (service st)))
            RUST_RUNTIME) with (is_rust (service st) func).
  by rewrite Hr.
Qed.

Lemma forEach_skip `{Host} this names found st :
  Forall (target_is_rust (service st) false) names ->
  forEach (build_function this) names found st = (Ret found, st).
Proof.
  induction 1 as [|n names (func & Hf & Hr) _ IH]; [done|].
  cbn [forEach].
  by rewrite (bind_ret _ _ _ _ _ (build_function_skip _ _ _ _ _ Hf Hr)).
Qed.

Lemma forEach_app (callback : string -> bool -> M bool) pre rest found st
    found1 st1 :
  forEach callback pre found st = (Ret found1, st1) ->
  forEach callback (pre ++ rest) found st = forEach callback rest found1 st1.
Proof.
  revert found st. induction pre as [|n pre IH]; intros found st; cbn.
  - by intros [= -> ->].
  - unfold mbind, M_bind. destruct (callback n found st) as [[f'|e] st'];
      [apply IH|done].
Qed.

(** The pass stops at the first callback that throws: the outcome is
    the one of that callback and the names after it play no part. *)
Lemma forEach_throw (callback : string -> bool -> M bool) pre name post found
    st found1 st1 e st2 :
  forEach callback pre found st = (Ret found1, st1) ->
  callback name found1 st1 = (Throw e, st2) ->
  forEach callback (pre ++ name :: post) found st = (Throw e, st2).
Proof.
  intros Hpre Hcb. rewrite (forEach_app _ _ _ _ _ _ _ Hpre). cbn.
  by rewrite (bind_throw _ _ _ _ _ Hcb).
Qed.

Lemma build_unsupported_provider `{Host} this st :
  eq_str (provider_name (service st)) "aws" = false ->
  build this st = (Ret tt, st).
Proof. intros Hp. unfold build. run. by rewrite Hp. Qed.

(** [build] past the provider guard, in terms of its loop. *)
Lemma build_supported `{Host} this st :
  eq_str (provider_name (service st)) "aws" = true ->
  build this st =
    match forEach (build_function this) (targets this (service st)) false st
    with
    | (Ret found, st1) =>
        let st2 := {| service := rewrite_default_runtime (service st1);
                      events := events st1 |} in
        if found then (Ret tt, st2) else (Throw no_rust_functions, st2)
    | (Throw e, st1) => (Throw e, st1)
    end.
Proof.
  intros Hp. unfold build. run. rewrite Hp. cbn.
  rewrite functions_targets.
  destruct (forEach _ _ _ _) as [[found|e] st1]; [|done].
  by destruct found.
Qed.

(** C6: on the supported provider, a pass none of whose target functions
    has the supported effective runtime throws the "no Rust functions
    found" error after the loop, having made no build attempt: the events
    are those before the pass, and of the service only the default runtime
    is touched (lines 264-266). *)
Theorem build_no_rust_functions `{Host} this st :
  eq_str (provider_name (service st)) "aws" = true ->
  Forall (target_is_rust (service st) false) (targets this (service st)) ->
  build this st =
    (Throw no_rust_functions,
     {| service := rewrite_default_runtime (service st);
        events := events st |}).
Proof.
  intros Hp Hskip.
  rewrite (build_supported _ _ Hp), (forEach_skip _ _ _ _ Hskip). done.
Qed.

Lemma build_no_rust_functions_witness :
  let svc := mk_service (VStr "aws") VUndef [("n", node_fn)] None in
  build (H := plain_host) (plugin ∅) (start svc)
    = (Throw no_rust_functions, start svc).
Proof.
  intros svc.
  apply (build_no_rust_functions (H := plain_host) (plugin ∅) (start svc)).
  - reflexivity.
  - repeat constructor. exists node_fn. split; vm_compute; reflexivity.
Defined.

(** ** One matching function *)

Create HintDb emits.

Lemma only_emits_ret {A} (a : A) : only_emits (mret a).
Proof.
  intros st r st' [= <- <-]. split; [done|]. exists []. by rewrite app_nil_r.
Qed.

Lemma only_emits_throw {A} (e : Exn) : only_emits (mthrow (A := A) e).
Proof.
  intros st r st' [= <- <-]. split; [done|]. exists []. by rewrite app_nil_r.
Qed.

Lemma only_emits_emit (e : Event) : only_emits (emit e).
Proof. intros st r st' [= <- <-]. split; [done|]. by exists [e]. Qed.

Lemma only_emits_history : only_emits history.
Proof.
  intros st r st' [= <- <-]. split; [done|]. exists []. by rewrite app_nil_r.
Qed.

Lemma only_emits_bind {A B} (m : M A) (f : A -> M B) :
  only_emits m -> (forall a, only_emits (f a)) -> only_emits (m ≫= f).
Proof.
  intros Hm Hf st r st'. unfold mbind, M_bind.
  destruct (m st) as [[a|e] st1] eqn:E;
    destruct (Hm _ _ _ E) as [Hs [evs Hev]].
  - intros E'. destruct (Hf _ _ _ _ E') as [Hs' [evs' Hev']].
    split; [congruence|].
    exists (evs ++ evs'). by rewrite Hev', Hev, app_assoc.
  - intros [= <- <-]. eauto.
Qed.

Lemma only_emits_lift {A} (r : Exn + A) : only_emits (lift r).
Proof. destruct r; [apply only_emits_throw|apply only_emits_ret]. Qed.

#[local] Hint Resolve only_emits_ret only_emits_throw only_emits_emit
  only_emits_history only_emits_lift : emits.

Ltac emits :=
  repeat first
    [ progress auto with emits
    | apply only_emits_bind; [|intros ?]
    | progress unfold cli_log
    | case_match ].

Lemma free_ident_emits `{Host} x : only_emits (free_ident x).
Proof. unfold free_ident. emits. Qed.

Lemma package_binary_emits `{Host} binary profile :
  only_emits (package_binary binary profile).
Proof. unfold package_binary. emits. Qed.

#[local] Hint Resolve free_ident_emits package_binary_emits : emits.

Lemma localBuild_emits `{Host} this funcArgs cargoPackage binary profile :
  only_emits (localBuild this funcArgs cargoPackage binary profile).
Proof. unfold localBuild. emits. Qed.

Lemma dockerBuild_emits `{Host} this funcArgs cargoPackage binary profile :
  only_emits (dockerBuild this funcArgs cargoPackage binary profile).
Proof. unfold dockerBuild. emits. Qed.

#[local] Hint Resolve localBuild_emits dockerBuild_emits : emits.

(** An executor touches the outside world only: the service is the same
    before and after, and the events grow. *)
Lemma run_executor_emits `{Host} this func binary profile :
  only_emits (run_executor this func binary profile).
Proof.
  unfold run_executor. emits.
Qed.

Lemma run_executor_unbound `{Host} this func binary profile st :
  globalThis !! "cargoPackage" = None ->
  run_executor this func binary profile st
    = (Throw (ReferenceError "cargoPackage"), st).
Proof.
  intros Hg. unfold run_executor, free_ident. rewrite Hg.
  by destruct (truthy _).
Qed.

(** The callback on a function the loop builds, up to the result of the
    executor. *)
Lemma build_function_rust `{Host} this name found st func :
  service_functions (service st) !! name = Some func ->
  is_rust (service st) func = true ->
  build_function this name found st =
    let binary := parsed_binary func in
    let profile := override_or_custom this (rust func) "profile" in
    match run_executor this func binary profile
            (log_event (building_msg func) st) with
    | (Ret res, st1) =>
        if failed res then
          (Throw (build_error res), log_event (failure_msg res) st1)
        else
          (Ret true,
           {| service :=
                set_function name (mark_built this binary profile func)
                  (service st1);
              events := events st1 |})
    | (Throw e, st1) => (Throw e, st1)
    end.
Proof.
  intros Hf Hr. unfold build_function.
  rewrite (bind_ret _ _ _ _ _ (getFunction_found _ _ _ Hf)). run.
  change (eq_str (js_or (runtime func) (provider_runtime (service st)))
            RUST_RUNTIME) with (is_rust (service st) func).
  rewrite Hr. cbn.
  change (get (cargoBinary func) "binary") with (parsed_binary func).
  change {| service := service st;
            events := events st ++
              [Log ("Building Rust " +:+ handler func +:+ " func...")] |}
    with (log_event (building_msg func) st).
  destruct (run_executor _ _ _ _ _) as [[res|e] st1]; [|done].
  by destruct (failed res).
Qed.

(** The first target the loop builds, when all targets exist and one of
    them is to be built. *)
Lemma first_rust_target (svc : Service) (names : list string) :
  Forall (fun n => is_Some (service_functions svc !! n)) names ->
  Exists (target_is_rust svc true) names ->
  exists pre name post func,
    names = pre ++ name :: post
    /\ Forall (target_is_rust svc false) pre
    /\ service_functions svc !! name = Some func
    /\ is_rust svc func = true.
Proof.
  induction 1 as [|n names [func Hf] Hall IH]; intros Hex.
  - by apply Exists_nil in Hex.
  - destruct (is_rust svc func) eqn:Hr.
    + exists [], n, names, func. by repeat split.
    + assert (Exists (target_is_rust svc true) names) as Hex'.
      { apply Exists_cons in Hex as [(f' & Hf' & Hr')|]; [|done].
        congruence. }
      destruct (IH Hex') as (pre & name & post & f' & -> & Hpre & Hf' & Hr').
      exists (n :: pre), name, post, f'. repeat split; try done.
      constructor; [by exists func|done].
Qed.

(** C1, as stated, fails: on a provider other than [aws] the pass returns
    at line 217 without throwing, whatever the runtimes. *)
Lemma build_other_provider_returns :
  let svc := mk_service (VStr "google") VUndef [("hello", hello)] None in
  is_rust svc hello = true
  /\ build (H := plain_host) (plugin ∅) (start svc) = (Ret tt, start svc).
Proof. split; vm_compute; reflexivity. Qed.

(** Nor does it throw where the global object has a [cargoPackage]. *)
Lemma build_leaked_global_returns :
  let svc := mk_service (VStr "aws") VUndef [("hello", hello)] None in
  (build (H := leaky_host 0%N) (plugin ∅) (start svc)).1 = Ret tt.
Proof. vm_compute; reflexivity. Qed.

(** C1, amended: on the supported provider and with no [cargoPackage] on
    the global object, a pass all of whose targets exist and one of whose
    targets has the supported effective runtime throws the ReferenceError
    for [cargoPackage] at the first such target, the one before which
    every target is skipped: after the "Building" log line of that
    function and before any executor runs, so no process is spawned and
    the service is unchanged. *)
Theorem build_throws_ReferenceError `{Host} this st :
  eq_str (provider_name (service st)) "aws" = true ->
  globalThis !! "cargoPackage" = None ->
  Forall (fun n => is_Some (service_functions (service st) !! n))
    (targets this (service st)) ->
  Exists (target_is_rust (service st) true) (targets this (service st)) ->
  exists pre name post func,
    targets this (service st) = pre ++ name :: post
    /\ Forall (target_is_rust (service st) false) pre
    /\ service_functions (service st) !! name = Some func
    /\ is_rust (service st) func = true
    /\ build this st =
         (Throw (ReferenceError "cargoPackage"),
          log_event (building_msg func) st).
Proof.
  intros Hp Hg Hall Hex.
  destruct (first_rust_target _ _ Hall Hex)
    as (pre & name & post & func & Hnames & Hpre & Hf & Hr).
  exists pre, name, post, func. repeat split; try done.
  rewrite (build_supported _ _ Hp), Hnames.
  rewrite (forEach_throw _ pre name post false st false st
             (ReferenceError "cargoPackage")
             (log_event (building_msg func) st)); [done| |].
  - by apply forEach_skip.
  - rewrite (build_function_rust _ _ _ _ _ Hf Hr). cbn zeta.
    by rewrite run_executor_unbound.
Qed.

Lemma build_throws_ReferenceError_witness :
  let svc := mk_service (VStr "aws") VUndef
               [("n", node_fn); ("hello", hello); ("world", with_handler "w")]
               None in
  exists pre name post func,
    targets (plugin ∅) svc = pre ++ name :: post
    /\ Forall (target_is_rust svc false) pre
    /\ service_functions svc !! name = Some func
    /\ is_rust svc func = true
    /\ build (H := plain_host) (plugin ∅) (start svc) =
         (Throw (ReferenceError "cargoPackage"),
          log_event (building_msg func) (start svc)).
Proof.
  intros svc.
  apply (build_throws_ReferenceError (H := plain_host) (plugin ∅) (start svc)).
  - reflexivity.
  - reflexivity.
  - repeat constructor; vm_compute; eauto.
  - apply Exists_cons_tl, Exists_cons_hd. exists hello.
    split; vm_compute; reflexivity.
Defined.

(** In that pass the throw comes at [hello], the first of the two
    functions to build, not at the one after it. *)
Example build_throws_at_first_rust_target :
  let svc := mk_service (VStr "aws") VUndef
               [("n", node_fn); ("hello", hello); ("world", with_handler "w")]
               None in
  build (H := plain_host) (plugin ∅) (start svc) =
    (Throw (ReferenceError "cargoPackage"),
     {| service := svc; events := [Log "Building Rust hello func..."] |}).
Proof. vm_compute; reflexivity. Qed.

(** ** Interpreting the executor's result *)

(** The test of line 236 in the words of the specification: a spawn
    error, or an exit status other than zero. *)
Lemma failed_iff (res : BuildResult) :
  failed res = true <->
  is_Some (res_error res) \/ exists n, res_status res = Some n /\ n <> 0%N.
Proof.
  unfold failed, status_pos. rewrite orb_true_iff, bool_decide_eq_true.
  destruct (res_status res) as [n|].
  - rewrite N.ltb_lt. split; (intros [?|Hn]; [by left|right]).
    + exists n. split; [done|lia].
    + destruct Hn as (? & [= <-] & ?). lia.
  - split; (intros [?|Hn]; [by left|]); [done|].
    by destruct Hn as (? & ? & _).
Qed.

Lemma mark_built_package `{Host} this binary profile func :
  package (mark_built this binary profile func) =
    Some (<["artifact" := VStr (artifactPath this binary profile)]>
            (default ∅ (package func))).
Proof. unfold mark_built. cbn. by destruct (eq_str _ _). Qed.

Lemma mark_built_runtime `{Host} this binary profile func :
  runtime (mark_built this binary profile func) =
    if eq_str (runtime func) RUST_RUNTIME then VStr BASE_RUNTIME
    else runtime func.
Proof. unfold mark_built. cbn. by destruct (eq_str _ _). Qed.

Lemma eq_str_true (v : value) (s : string) : eq_str v s = true <-> v = VStr s.
Proof.
  destruct v; cbn; try (split; [done|by intros [= ]]).
  rewrite bool_decide_eq_true. split; [by intros ->|by intros [= ->]].
Qed.

(** C4, as stated, fails for a function that matches through the
    service default: its executor succeeds and the artifact is set, but
    the runtime it declares (none) is not rewritten to "provided". *)
Lemma default_matched_runtime_kept :
  let svc := mk_service (VStr "aws") (VStr "rust") [("world", world)] None in
  let out := build_function (H := leaky_host 0) (plugin ∅) "world" false
               (start svc) in
  is_rust svc world = true
  /\ out.1 = Ret true
  /\ runtime <$> service_functions (service out.2) !! "world" = Some VUndef
  /\ (service_functions (service out.2) !! "world")
       ≫= (fun f => default ∅ (package f) !! "artifact")
     = Some (VStr "/srv/target/lambda/release/world.zip").
Proof. repeat split; vm_compute; reflexivity. Qed.

(** C4, amended: when a function the loop builds has an executor result
    that is no failure, the callback returns with the service holding,
    under the function's name, the function with [package.artifact] set
    to the artifact path (the docker path joined with
    target/lambda/release, or debug for the profile "dev", and the binary
    name followed by ".zip"), its other package keys, handler and
    override block kept, and its runtime rewritten to "provided" when the
    function declares "rust"; a function that matched through the service
    default keeps the runtime it declares.  Every other function and the
    rest of the service are as before.  After a loop that ran to its end,
    the pass leaves the functions alone and rewrites the service default
    runtime to "provided" when it was "rust", and keeps it otherwise; under
    the rewritten default the effective runtime of the built function is
    "provided".

    The executor runs only where the global object has a [cargoPackage]
    (see [build_throws_ReferenceError]). *)
Theorem build_function_success `{Host} this name found st func res st1 :
  service_functions (service st) !! name = Some func ->
  is_rust (service st) func = true ->
  run_executor this func (parsed_binary func)
    (override_or_custom this (rust func) "profile")
    (log_event (building_msg func) st) = (Ret res, st1) ->
  failed res = false ->
  let profile := override_or_custom this (rust func) "profile" in
  exists st' func',
    build_function this name found st = (Ret true, st')
    /\ events st' = events st1
    /\ service_functions (service st') !! name = Some func'
    /\ (forall other, other <> name ->
          service_functions (service st') !! other
            = service_functions (service st) !! other)
    /\ same_frame (service st) (service st')
    /\ provider_runtime (service st') = provider_runtime (service st)
    /\ handler func' = handler func
    /\ rust func' = rust func
    /\ (exists b, parsed_binary func = VStr b
          /\ package func' =
               Some (<["artifact" :=
                        VStr (path_join
                                [dockerPath this;
                                 "target/lambda/" +:+
                                   (if eq_str profile "dev" then "debug"
                                    else "release");
                                 b +:+ ".zip"])]>
                       (default ∅ (package func))))
    /\ (runtime func = VStr RUST_RUNTIME -> runtime func' = VStr BASE_RUNTIME)
    /\ (runtime func <> VStr RUST_RUNTIME -> runtime func' = runtime func)
    /\ effective_runtime (rewrite_default_runtime (service st')) func'
         = VStr BASE_RUNTIME
    /\ (forall st0 found' st2,
          eq_str (provider_name (service st0)) "aws" = true ->
          forEach (build_function this) (targets this (service st0)) false st0
            = (Ret found', st2) ->
          let final := service (build this st0).2 in
          events (build this st0).2 = events st2
          /\ service_functions final = service_functions (service st2)
          /\ same_frame (service st2) final
          /\ (provider_runtime (service st2) = VStr RUST_RUNTIME ->
              provider_runtime final = VStr BASE_RUNTIME)
          /\ (provider_runtime (service st2) <> VStr RUST_RUNTIME ->
              provider_runtime final = provider_runtime (service st2))).
Proof.
  intros Hf Hr Hrun Hok profile.
  destruct (run_executor_emits _ _ _ _ _ _ _ Hrun) as [Hs _]. cbn in Hs.
  set (func' := mark_built this (parsed_binary func) profile func).
  exists {| service := set_function name func' (service st);
            events := events st1 |}, func'.
  split; [|split; [done|split; [|split; [|split; [|split]]]]].
  - rewrite (build_function_rust _ _ _ _ _ Hf Hr). cbn zeta.
    by rewrite Hrun, Hok, Hs.
  - cbn. apply lookup_insert_eq.
  - intros other Hne. cbn. by rewrite lookup_insert_ne.
  - by repeat split.
  - done.
  - assert (runtime func' =
              if eq_str (runtime func) RUST_RUNTIME then VStr BASE_RUNTIME
              else runtime func) as Hrt by apply mark_built_runtime.
    split; [|split; [|split; [|split; [|split; [|split]]]]].
    + unfold func', mark_built. by destruct (eq_str _ _).
    + unfold func', mark_built. by destruct (eq_str _ _).
    + destruct (cargoBinary_split_first func) as [_ Hb]. eexists.
      split; [done|]. unfold func'. rewrite mark_built_package.
      unfold artifactPath. by rewrite Hb.
    + intros Hd. by rewrite Hrt, (proj2 (eq_str_true _ _) Hd).
    + intros Hd. rewrite Hrt.
      destruct (eq_str (runtime func) RUST_RUNTIME) eqn:E; [|done].
      by apply eq_str_true in E.
    + cbn [service]. unfold effective_runtime, rewrite_default_runtime.
      cbn [set_function provider_runtime]. rewrite Hrt.
      apply eq_str_true in Hr. unfold effective_runtime, js_or in Hr |- *.
      destruct (truthy (runtime func)) eqn:Ht.
      * by rewrite Hr.
      * rewrite Hr. cbn -[BASE_RUNTIME].
        destruct (eq_str (runtime func) RUST_RUNTIME) eqn:E.
        -- apply eq_str_true in E. by rewrite E in Ht.
        -- by rewrite Ht.
    + intros st0 found' st2 Hp Hloop final. subst final.
      rewrite (build_supported _ _ Hp), Hloop.
      assert (forall (b : bool) (x y : Res unit) (s : State),
                 (if b then (x, s) else (y, s)).2 = s) as Hsnd
        by (by intros []).
      cbn zeta. rewrite Hsnd.
      cbn [service events]. unfold rewrite_default_runtime.
      destruct (eq_str (provider_runtime (service st2)) RUST_RUNTIME) eqn:E.
      * apply eq_str_true in E. by repeat split.
      * repeat split; try done. intros Hd.
        by rewrite (proj2 (eq_str_true _ _) Hd) in E.
Qed.

Lemma build_function_success_witness :
  let svc := mk_service (VStr "aws") (VStr "rust")
               [("hello", hello); ("n", node_fn)] None in
  exists st' func',
    build_function (H := leaky_host 0) (plugin ∅) "hello" false (start svc)
      = (Ret true, st')
    /\ service_functions (service st') !! "hello" = Some func'
    /\ service_functions (service st') !! "n" = Some node_fn
    /\ package func' =
         Some (<["artifact" := VStr "/srv/target/lambda/release/hello.zip"]> ∅)
    /\ runtime func' = VStr "provided".
Proof.
  intros svc.
  pose (st1 := (run_executor (H := leaky_host 0) (plugin ∅) hello
                  (parsed_binary hello)
                  (override_or_custom (plugin ∅) (rust hello) "profile")
                  (log_event (building_msg hello) (start svc))).2).
  destruct (build_function_success (H := leaky_host 0) (plugin ∅) "hello" false
              (start svc) hello (Spawned (exit_with 0)) st1)
    as (st' & func' & Hrun & _ & Hlook & Hother & _ & _ & _ & _
        & (b & Hb & Hpkg) & Hrt & _).
  - vm_compute; reflexivity.
  - vm_compute; reflexivity.
  - vm_compute; reflexivity.
  - vm_compute; reflexivity.
  - exists st', func'. split; [exact Hrun|]. split; [exact Hlook|]. split.
    + rewrite Hother by discriminate. vm_compute; reflexivity.
    + split; [|by apply Hrt]. injection Hb as <-. exact Hpkg.
Defined.

(** C5: on the supported provider, when the executor run for a function
    the loop builds returns a result with a spawn error or an exit status
    other than zero, the pass throws at once: its outcome is the error
    made from that result and its final state is the state the failed
    executor left plus the line logging the failure.  The targets after
    the failing one contribute nothing: nothing is spawned, read, written
    or logged for them, and they are not modified.

    The executor runs only where the global object has a [cargoPackage]
    (see [build_throws_ReferenceError]). *)
Theorem build_fail_fast `{Host} this st pre name post found0 st0 func res st1 :
  eq_str (provider_name (service st)) "aws" = true ->
  targets this (service st) = pre ++ name :: post ->
  forEach (build_function this) pre false st = (Ret found0, st0) ->
  service_functions (service st0) !! name = Some func ->
  is_rust (service st0) func = true ->
  run_executor this func (parsed_binary func)
    (override_or_custom this (rust func) "profile")
    (log_event (building_msg func) st0) = (Ret res, st1) ->
  is_Some (res_error res)
    \/ (exists n, res_status res = Some n /\ n <> 0%N) ->
  build this st = (Throw (build_error res), log_event (failure_msg res) st1)
  /\ service (log_event (failure_msg res) st1) = service st0
  /\ forall post',
       forEach (build_function this) (pre ++ name :: post') false st
         = (Throw (build_error res), log_event (failure_msg res) st1).
Proof.
  intros Hp Hnames Hpre Hf Hr Hrun Hfail%failed_iff.
  assert (build_function this name found0 st0
          = (Throw (build_error res), log_event (failure_msg res) st1)) as Hcb.
  { rewrite (build_function_rust _ _ _ _ _ Hf Hr). cbn zeta.
    by rewrite Hrun, Hfail. }
  split; [|split].
  - rewrite (build_supported _ _ Hp), Hnames.
    by rewrite (forEach_throw _ _ _ _ _ _ _ _ _ _ Hpre Hcb).
  - destruct (run_executor_emits _ _ _ _ _ _ _ Hrun) as [Hs _].
    cbn. by rewrite Hs.
  - intros post'. exact (forEach_throw _ _ _ _ _ _ _ _ _ _ Hpre Hcb).
Qed.

Lemma build_fail_fast_witness :
  let svc := mk_service (VStr "aws") (VStr "rust")
               [("n", node_fn); ("hello", hello); ("world", world)] None in
  exists st',
    build (H := leaky_host 101) (plugin ∅) (start svc)
      = (Throw (Error ""), st')
    /\ service st' = svc
    /\ length (List.filter is_spawn (events st')) = 1%nat.
Proof.
  intros svc.
  pose (st1 := (run_executor (H := leaky_host 101) (plugin ∅) hello
                  (parsed_binary hello)
                  (override_or_custom (plugin ∅) (rust hello) "profile")
                  (log_event (building_msg hello) (start svc))).2).
  destruct (build_fail_fast (H := leaky_host 101) (plugin ∅) (start svc)
              ["n"] "hello" ["world"] false (start svc) hello
              (Spawned (exit_with 101)) st1)
    as (Hbuild & Hsvc & _).
  - reflexivity.
  - reflexivity.
  - vm_compute; reflexivity.
  - vm_compute; reflexivity.
  - vm_compute; reflexivity.
  - vm_compute; reflexivity.
  - right. exists 101%N. split; [reflexivity|discriminate].
  - exists (log_event (failure_msg (Spawned (exit_with 101))) st1).
    split; [exact Hbuild|]. split; [exact Hsvc|]. vm_compute; reflexivity.
Defined.

(** ** The executors *)

Arguments docker_finalArgs : simpl never.
Arguments local_finalArgs : simpl never.
Arguments finalEnv : simpl never.
Arguments env_or : simpl never.

(** [dockerBuild] returns what [spawnSync] returns, whatever it is. *)
Lemma dockerBuild_returns `{Host} this funcArgs cargoPackage binary profile st :
  exists r evs,
    dockerBuild this funcArgs cargoPackage binary profile st
      = (Ret (Spawned r), {| service := service st; events := events st ++ evs |}).
Proof.
  unfold dockerBuild. run. eexists _, _.
  rewrite <- app_assoc. reflexivity.
Qed.

(** A failing toolchain is returned by [localBuild], and nothing is
    packaged. *)
Lemma localBuild_toolchain_failure `{Host} this funcArgs cargoPackage binary
    profile st args :
  local_finalArgs this funcArgs cargoPackage profile = inr args ->
  let h := events st ++ [Log "Running local cargo build"] in
  let r := spawnSync h "cargo" args (Some finalEnv) in
  failed (Spawned r) = true ->
  localBuild this funcArgs cargoPackage binary profile st
    = (Ret (Spawned r),
       {| service := service st;
          events := h ++ [Spawn "cargo" args (Some finalEnv)] |}).
Proof.
  intros Hargs h r Hfail. unfold localBuild. rewrite Hargs. run.
  fold h r. by rewrite Hfail.
Qed.

(** A failure to write the archive is returned, as an object no
    [spawnSync] produces. *)
Lemma package_binary_write_failure `{Host} b profile st data err :
  let h := events st ++ [ReadFile (built_binary b profile)] in
  readFileSync (events st) (built_binary b profile) = inr data ->
  let zip := [{| entryName := "bootstrap"; content := data; comment := "";
                 attr := 755%N |}] in
  let h' := h ++ [Mkdir (path_join ["target"; "lambda"; profile_dir profile])] in
  writeFileSync h' (archive b profile) zip = Some err ->
  (package_binary (VStr b) profile st).1 = Ret (ZipFailed err).
Proof.
  intros h Hread zip h' Hwrite. unfold package_binary. run.
  fold (built_binary b profile). rewrite Hread. run.
  unfold h', h, zip, archive in Hwrite. by rewrite Hwrite.
Qed.

(** A failure to read the built binary is thrown: the call of
    [readFileSync] at line 119 stands outside the two [try] blocks. *)
Lemma package_binary_read_failure `{Host} b profile st e :
  readFileSync (events st) (built_binary b profile) = inl e ->
  package_binary (VStr b) profile st
    = (Throw e,
       {| service := service st;
          events := events st ++ [ReadFile (built_binary b profile)] |}).
Proof.
  intros Hread. unfold package_binary. run.
  fold (built_binary b profile). by rewrite Hread.
Qed.

(** C7 fails on the code: with the toolchain exiting with status 0 and
    no binary named [hello] under [target/release], [localBuild] throws
    the error of [readFileSync] instead of returning a result. *)
Theorem localBuild_throws_on_missing_binary :
  localBuild (H := missing_binary_host) (plugin ∅) None
    (VStr "hello") (VStr "hello") VUndef
    (start (mk_service (VStr "aws") VUndef [("hello", hello)] None))
  = (Throw (SystemError "ENOENT"),
     {| service := mk_service (VStr "aws") VUndef [("hello", hello)] None;
        events :=
          [Log "Running local cargo build";
           Spawn "cargo" [VStr "build"; VStr "-p"; VStr "hello"; VStr "--release"]
             (Some ∅);
           ReadFile "target/release/hello"] |}).
Proof.
  unfold localBuild.
  change (lift (local_finalArgs (H := missing_binary_host) (plugin ∅) None
                  (VStr "hello") VUndef))
    with (mret (M := M)
            [VStr "build"; VStr "-p"; VStr "hello"; VStr "--release"]).
  run.
  exact (package_binary_read_failure (H := missing_binary_host) "hello" VUndef
           _ (SystemError "ENOENT") eq_refl).
Qed.

(** ** Argument lists *)

Lemma filter_truthy_app (l k : list value) :
  filter_truthy (l ++ k) = filter_truthy l ++ filter_truthy k.
Proof. apply List.filter_app. Qed.

Lemma filter_truthy_strings (l : list string) :
  filter_truthy (VStr <$> l) = VStr <$> List.filter nonempty l.
Proof.
  induction l as [|s l IH]; [done|]. cbn.
  destruct (nonempty s); cbn; by rewrite <- IH.
Qed.

Lemma nonempty_app_l (s t : string) :
  nonempty s = true -> nonempty (s +:+ t) = true.
Proof. intros Hs. by rewrite nonempty_app, Hs. Qed.

Lemma nonempty_app_r (s t : string) :
  nonempty t = true -> nonempty (s +:+ t) = true.
Proof. intros Ht. by rewrite nonempty_app, Ht, orb_true_r. Qed.

Lemma filter_truthy_defaultArgs `{Host} this binary :
  filter_truthy (docker_defaultArgs this binary) = docker_defaultArgs this binary.
Proof.
  unfold docker_defaultArgs, filter_truthy. cbn.
  rewrite nonempty_app_l by done. by rewrite !nonempty_app_r by done.
Qed.

Lemma filter_truthy_profileArgs profile :
  filter_truthy (docker_profileArgs profile) = docker_profileArgs profile.
Proof.
  unfold docker_profileArgs. destruct (truthy profile); [|done].
  cbn. by rewrite nonempty_app_l.
Qed.

Lemma filter_truthy_flagArgs this funcArgs cargoPackage :
  filter_truthy (docker_flagArgs this funcArgs cargoPackage)
    = docker_flagArgs this funcArgs cargoPackage.
Proof.
  unfold docker_flagArgs. destruct (truthy _); [|done].
  cbn. by rewrite nonempty_app_l.
Qed.

(** Where the only whitespace is the space character, cutting at spaces
    and cutting at whitespace give the same tokens. *)
Lemma split_ws_aux_skip (s : string) :
  List.filter nonempty (split_ws_aux true s)
    = List.filter nonempty (split_ws_aux false s).
Proof. destruct s as [|c s]; cbn; [done|]. by destruct (is_ws c). Qed.

Lemma split_space_ws (s : string) :
  spaces_only s = true ->
  exists h t t',
    split_ws_aux false s = h :: t /\ split_on " " s = h :: t'
    /\ List.filter nonempty t = List.filter nonempty t'.
Proof.
  induction s as [|c s IH]; cbn; [by exists "", [], []|].
  intros [Hc Hs]%andb_true_iff.
  destruct (IH Hs) as (h & t & t' & Hws & Hsp & Hft).
  destruct (Ascii.eqb c " ") eqn:Hsp'.
  - apply Ascii.eqb_eq in Hsp' as ->. cbn.
    exists "", (split_ws_aux true s), (split_on " " s). repeat split.
    rewrite split_ws_aux_skip, Hws, Hsp. cbn. by rewrite Hft.
  - rewrite orb_false_r in Hc. apply negb_true_iff in Hc. rewrite Hc, Hws, Hsp.
    cbn. by exists (String c h), t, t'.
Qed.

Lemma space_tokens_ws_tokens (s : string) :
  spaces_only s = true -> space_tokens s = ws_tokens s.
Proof.
  intros (h & t & t' & Hws & Hsp & Hft)%split_space_ws.
  unfold space_tokens, ws_tokens, split_ws. rewrite Hws, Hsp. cbn.
  by rewrite Hft.
Qed.

(** C8, as stated, fails: a TAB between the two tokens of
    [SLS_DOCKER_ARGS] is whitespace, yet the value reaches the container
    runtime as one argument, and the token [FOO=1] as none. *)
Lemma docker_tab_separated_args_not_split :
  let v := "-e" +:+ String "009" "FOO=1" in
  let args := docker_finalArgs (H := tab_args_host) (plugin ∅) None
                (VStr "hello") (VStr "hello") VUndef in
  process_env (Host := tab_args_host) !! "SLS_DOCKER_ARGS" = Some v
  /\ ws_tokens v = ["-e"; "FOO=1"]
  /\ args = docker_defaultArgs (H := tab_args_host) (plugin ∅) (VStr "hello")
              ++ [VStr v; VStr "-e"; VStr "CARGO_FLAGS= -p hello";
                  VStr "softprops/lambda-rust:0.2.7-rust-1.43.0"]
  /\ VStr "FOO=1" ∉ args.
Proof.
  repeat split; try (vm_compute; reflexivity).
  intros Hin. apply list_elem_of_In in Hin. vm_compute in Hin.
  repeat (destruct Hin as [Hin|Hin]; [discriminate Hin|]). done.
Qed.

(** C8, amended: the container-runtime argument list is the fixed
    arguments, then the non-empty pieces of [SLS_DOCKER_ARGS] cut at each
    space character (and at no other whitespace), verbatim and in order,
    then the pair for a truthy profile and the pair for the cargo flags,
    and last the image reference.  For a value whose only whitespace is
    the space character these pieces are its whitespace-split tokens. *)
Theorem docker_finalArgs_layout `{Host} this funcArgs cargoPackage binary
    profile :
  let v := env_or "SLS_DOCKER_ARGS" "" in
  docker_finalArgs this funcArgs cargoPackage binary profile =
    docker_defaultArgs this binary
      ++ (VStr <$> space_tokens v)
      ++ docker_profileArgs profile
      ++ docker_flagArgs this funcArgs cargoPackage
      ++ [VStr (docker_imageRef this funcArgs)]
  /\ (spaces_only v = true -> space_tokens v = ws_tokens v).
Proof.
  intros v. split; [|apply space_tokens_ws_tokens].
  unfold docker_finalArgs, docker_extraArgs, space_tokens.
  rewrite !filter_truthy_app, filter_truthy_defaultArgs,
    filter_truthy_strings, filter_truthy_profileArgs, filter_truthy_flagArgs.
  rewrite <- !app_assoc. do 4 f_equal.
  unfold docker_imageRef, filter_truthy. cbn.
  by rewrite nonempty_app_r by by apply nonempty_app_l.
Qed.

Example space_tokens_example :
  space_tokens "-e FOO=1" = ["-e"; "FOO=1"]
  /\ ws_tokens "-e FOO=1" = ["-e"; "FOO=1"].
Proof. split; reflexivity. Qed.

Lemma truthy_neq_undefined (v : value) :
  truthy v = true -> neq_undefined v = true.
Proof. by destruct v. Qed.

(** C10, as stated, fails: the local toolchain is invoked with the
    selector [-p] and the package [localBuild] was given; in a pass that
    reaches the local executor this is the value of the global
    [cargoPackage]. *)
Lemma localBuild_selects_package :
  let svc := mk_service (VStr "aws") VUndef [("hello", hello)] None in
  let local := plugin (<["dockerless" := VBool true]> ∅) in
  local_finalArgs (H := plain_host) (plugin ∅) None (VStr "hello") VUndef
    = inr [VStr "build"; VStr "-p"; VStr "hello"; VStr "--release"]
  /\ Spawn "cargo" [VStr "build"; VStr "-p"; VStr "hello"; VStr "--release"]
       (Some ∅)
     ∈ events (localBuild (H := plain_host) (plugin ∅) None (VStr "hello")
                 (VStr "hello") VUndef (start svc)).2
  /\ Spawn "cargo" [VStr "build"; VStr "-p"; VStr "leaked"; VStr "--release"]
       (Some ∅)
     ∈ events (build (H := leaky_host 0) local (start svc)).2.
Proof.
  intros svc local. split; [vm_compute; reflexivity|].
  split; apply list_elem_of_In; vm_compute; tauto.
Qed.

(** C10, amended: both executors put the selector into their
    invocation.  For a truthy package argument (and cargo flags that are a
    string) the local toolchain arguments start with [build], [-p] and the
    package, followed by [--release] unless the profile is "dev", the
    target on a musl platform, and the tokens of the cargo flags.  For the
    same package the container receives [CARGO_FLAGS] ending in
    [-p <package>].  What [build] hands to either executor as the package
    is the value of the global [cargoPackage], not the unit parsed from
    the handler. *)
Theorem executors_select_package `{Host} this funcArgs cargoPackage profile fl :
  truthy cargoPackage = true ->
  js_or (override_or_custom this funcArgs "cargoFlags") (VStr "") = VStr fl ->
  local_finalArgs this funcArgs cargoPackage profile =
    inr ([VStr "build"; VStr "-p"; cargoPackage]
           ++ (if negb (eq_str profile "dev") then [VStr "--release"] else [])
           ++ (if is_musl
               then [VStr "--target"; VStr "x86_64-unknown-linux-musl"]
               else [])
           ++ (VStr <$> ws_tokens fl))
  /\ docker_flagArgs this funcArgs cargoPackage =
       [VStr "-e";
        VStr ("CARGO_FLAGS=" +:+ fl +:+ " -p " +:+ to_str cargoPackage)]
  /\ (forall func binary g st,
        globalThis !! "cargoPackage" = Some g ->
        run_executor this func binary profile st =
          if truthy (buildLocally this func)
          then localBuild this (rust func) g binary profile st
          else dockerBuild this (rust func) g binary profile st).
Proof.
  intros Hpkg Hfl. split; [|split].
  - unfold local_finalArgs. rewrite Hfl. f_equal.
    rewrite !filter_truthy_app, filter_truthy_strings. cbn. rewrite Hpkg.
    by destruct (negb _), is_musl.
  - unfold docker_flagArgs, docker_cargoFlags.
    rewrite (truthy_neq_undefined _ Hpkg).
    unfold js_or in Hfl.
    destruct (truthy (override_or_custom this funcArgs "cargoFlags")) eqn:Hcf.
    + rewrite Hfl. cbn. by rewrite nonempty_app_r by by apply nonempty_app_l.
    + injection Hfl as <-. cbn. by rewrite nonempty_app_l.
  - intros func binary g st Hg. unfold run_executor, free_ident. rewrite Hg.
    destruct (truthy (buildLocally this func)); reflexivity.
Qed.

Lemma executors_select_package_witness :
  local_finalArgs (H := plain_host) (plugin ∅) None (VStr "pkg") (VStr "dev")
    = inr [VStr "build"; VStr "-p"; VStr "pkg"]
  /\ docker_flagArgs (plugin ∅) None (VStr "pkg")
       = [VStr "-e"; VStr "CARGO_FLAGS= -p pkg"].
Proof.
  destruct (executors_select_package (H := plain_host) (plugin ∅) None
              (VStr "pkg") (VStr "dev") "") as (Hl & Hd & _).
  - reflexivity.
  - vm_compute; reflexivity.
  - split; [exact Hl|exact Hd].
Defined.

(** * Further properties *)

(** ** includeInvokeHook *)

Lemma digit_value_pretty (d : N) :
  (d < 10)%N -> digit_value 10 (pretty_N_char d) = Some d.
Proof.
  intros Hd.
  assert (d = 0 \/ d = 1 \/ d = 2 \/ d = 3 \/ d = 4 \/ d = 5 \/ d = 6
          \/ d = 7 \/ d = 8 \/ d = 9)%N as Hcases by lia.
  repeat (destruct Hcases as [->|Hcases]; [reflexivity|]). by subst.
Qed.

Lemma is_decimal_pretty_char (d : N) : is_decimal (pretty_N_char d) = true.
Proof. unfold pretty_N_char. by repeat case_match. Qed.

Lemma is_decimal_plain (c : ascii) :
  is_decimal c = true ->
  is_ws c = false /\ Ascii.eqb c "-" = false /\ Ascii.eqb c "+" = false
  /\ Ascii.eqb c "x" = false /\ Ascii.eqb c "X" = false
  /\ Ascii.eqb c "." = false.
Proof. by destruct c as [[] [] [] [] [] [] [] []]. Qed.

(** The digits [pretty_N_go] puts before [s] read back as the number. *)
Lemma parse_digits_pretty_go (x : N) :
  (0 < x)%N ->
  forall s, exists k, forall acc,
    parse_digits 10 acc (pretty_N_go x s)
      = parse_digits 10 (Some (10 ^ k * default 0 acc + x)%N) s.
Proof.
  induction (N.lt_wf_0 x) as [x _ IH]. intros Hx s.
  rewrite pretty_N_go_step by done.
  destruct (N.eq_0_gt_0_cases (x `div` 10)%N) as [Hq|Hq].
  - rewrite Hq, pretty_N_go_0. exists 1%N. intros acc. cbn [parse_digits].
    rewrite digit_value_pretty by (apply N.mod_lt; lia).
    do 2 f_equal. rewrite N.pow_1_r. unfold id.
    pose proof (N.div_mod x 10 ltac:(done)) as Hdm. rewrite Hq in Hdm. lia.
  - destruct (IH (x `div` 10)%N) with (s := String (pretty_N_char (x `mod` 10)) s)
      as [k Hk]; [apply N.div_lt; lia|done|].
    exists (k + 1)%N. intros acc. rewrite Hk. cbn [parse_digits].
    rewrite digit_value_pretty by (apply N.mod_lt; lia). cbn [default].
    do 2 f_equal. rewrite N.pow_add_r, N.pow_1_r. unfold id.
    pose proof (N.div_mod x 10 ltac:(done)) as Hdm.
    generalize dependent (x `div` 10)%N. generalize (x `mod` 10)%N.
    generalize (10 ^ k)%N (default 0%N acc). intros. lia.
Qed.

Lemma all_decimal_pretty_go (x : N) (s : string) :
  all_decimal s = true -> all_decimal (pretty_N_go x s) = true.
Proof.
  revert s. induction (N.lt_wf_0 x) as [x _ IH]. intros s Hs.
  assert (x = 0 \/ 0 < x)%N as [->|Hx] by lia; [by rewrite pretty_N_go_0|].
  rewrite pretty_N_go_step by done. apply IH; [apply N.div_lt; lia|].
  cbn. by rewrite is_decimal_pretty_char.
Qed.

Lemma all_decimal_pretty (n : N) : all_decimal (pretty n) = true.
Proof.
  unfold pretty, pretty_N. case_decide; [done|].
  by apply all_decimal_pretty_go.
Qed.

Lemma all_decimal_no_sep (s : string) : all_decimal s = true -> has_sep s = false.
Proof.
  induction s as [|c s IH]; [done|]. cbn.
  intros [Hc Hs]%andb_true_iff. rewrite (IH Hs), orb_false_r.
  by apply is_decimal_plain in Hc as (_ & _ & _ & _ & _ & ->).
Qed.

(** A string of decimal digits is read in radix 10 from its first code
    unit on: it has no leading whitespace, no sign and no [0x]. *)
Lemma parseInt_decimal (s : string) :
  all_decimal s = true ->
  parseInt (VStr s) = Z.of_N <$> parse_digits 10 None s.
Proof.
  destruct s as [|c s]; [done|]. cbn [all_decimal].
  intros [Hc Hs]%andb_true_iff.
  apply is_decimal_plain in Hc as (Hws & Hm & Hp & _).
  unfold parseInt. cbn [to_str trim_start]. rewrite Hws, Hm, Hp.
  destruct s as [|x s'].
  - by destruct (parse_digits _ _ _) as [[]|].
  - cbn [all_decimal] in Hs. apply andb_true_iff in Hs as [Hx _].
    apply is_decimal_plain in Hx as (_ & _ & _ & -> & -> & _).
    rewrite andb_false_r. by destruct (parse_digits _ _ _) as [[]|].
Qed.

Lemma parseInt_pretty (n : N) : parseInt (VStr (pretty n)) = Some (Z.of_N n).
Proof.
  rewrite parseInt_decimal by apply all_decimal_pretty.
  unfold pretty, pretty_N. case_decide as Hn; [by subst|].
  destruct (parse_digits_pretty_go n) with (s := "") as [k ->]; [lia|].
  cbn. do 2 f_equal. lia.
Qed.

Lemma app_empty_r (s : string) : s +:+ "" = s.
Proof. induction s as [|c s IH]; [done|]. by rewrite app_cons, IH. Qed.

Lemma includeInvokeHook_segments (a b tail : string) :
  has_sep a = false -> has_sep b = false ->
  tail = "" \/ (exists r, tail = "." +:+ r) ->
  includeInvokeHook (a +:+ "." +:+ b +:+ tail) =
    num_eq (parseInt (VStr a)) 1 && num_ge (parseInt (VStr b)) 38
      && num_lt (parseInt (VStr b)) 40.
Proof.
  intros Ha Hb Htail. unfold includeInvokeHook.
  rewrite split_on_split_first, split_first_sep by done.
  destruct (split_on_head (b +:+ tail)) as [t ->].
  assert ((split_first (b +:+ tail)).1 = b) as ->; [|done].
  destruct Htail as [->|[r ->]].
  - by rewrite app_empty_r, split_first_no_sep.
  - by rewrite split_first_sep.
Qed.

(** X1: for a version [M.m] or [M.m.patch] written with decimal numbers
    [M] and [m], whatever the patch, the hook [before:invoke:local:invoke]
    is registered exactly for major 1 and minor 38 or 39. *)
Theorem invoke_hook_versions (M m : N) (tail : string) :
  tail = "" \/ (exists patch, tail = "." +:+ patch) ->
  "before:invoke:local:invoke" ∈ hooks (pretty M +:+ "." +:+ pretty m +:+ tail)
  <-> M = 1%N /\ (m = 38 \/ m = 39)%N.
Proof.
  intros Htail. unfold hooks.
  rewrite includeInvokeHook_segments;
    [|apply all_decimal_no_sep, all_decimal_pretty..|exact Htail].
  rewrite !parseInt_pretty. cbn [num_eq num_ge num_lt].
  destruct (_ && _ && _) eqn:E.
  - apply andb_true_iff in E as [[E1 E2]%andb_true_iff E3].
    split; [intros _; lia|]. intros _.
    apply list_elem_of_In. cbn. tauto.
  - split; [intros Hin|intros [-> Hm]].
    + apply list_elem_of_In in Hin. cbn in Hin.
      destruct Hin as [Hin|[Hin|[]]]; discriminate Hin.
    + exfalso. destruct Hm as [->| ->]; discriminate E.
Qed.

Lemma invoke_hook_versions_witness :
  "before:invoke:local:invoke" ∈ hooks "1.39.4"
  <-> 1%N = 1%N /\ (39 = 38 \/ 39 = 39)%N.
Proof.
  apply (invoke_hook_versions 1 39 ".4"). right. by exists "4".
Defined.

(** X2: a version string without a separator has no minor number, and
    the invoke hook is not registered for it, whatever it says. *)
Theorem invoke_hook_needs_minor (version : string) :
  has_sep version = false ->
  includeInvokeHook version = false
  /\ hooks version = ["before:package:createDeploymentArtifacts";
                      "before:deploy:function:packageFunction"].
Proof.
  intros Hv.
  assert (includeInvokeHook version = false) as Hi.
  { unfold includeInvokeHook.
    rewrite split_on_split_first, split_first_no_sep by done. cbn.
    by rewrite andb_false_r. }
  split; [done|]. unfold hooks. by rewrite Hi.
Qed.

Lemma invoke_hook_needs_minor_witness :
  includeInvokeHook "138" = false
  /\ hooks "138" = ["before:package:createDeploymentArtifacts";
                    "before:deploy:function:packageFunction"].
Proof. apply (invoke_hook_needs_minor "138"). reflexivity. Defined.

(** ** cargoBinary, continued *)

(** X3: whatever the handler, the unit and the binary name are strings
    free of the separator, and the handler starts with the unit. *)
Theorem cargoBinary_names_have_no_separator (func : Func) :
  exists u b rest,
    parsed_unit func = VStr u /\ parsed_binary func = VStr b
    /\ has_sep u = false /\ has_sep b = false
    /\ handler func = u +:+ rest.
Proof.
  destruct (cargoBinary_split_first func) as [Hu Hb].
  destruct (split_first_shape (handler func)) as [Hsep Hshape].
  destruct (split_first (handler func)) as [u [r|]] eqn:E; cbn in *.
  - exists u, (split_first r).1, ("." +:+ r). repeat split; try done.
    apply split_first_shape.
  - exists u, u, "". repeat split; try done. by rewrite app_empty_r.
Qed.

(** ** The environment and the arguments of the local toolchain *)

Lemma is_musl_cases `{Host} :
  (is_musl = true /\ (platform = "darwin" \/ platform = "windows"))
  \/ (is_musl = false /\ platform <> "darwin" /\ platform <> "windows").
Proof.
  unfold is_musl, MUSL_PLATFORMS. case_bool_decide as Hp; [left|right].
  - split; [done|].
    rewrite !elem_of_cons, elem_of_nil in Hp. tauto.
  - split; [done|].
    rewrite !elem_of_cons, elem_of_nil in Hp. tauto.
Qed.

(** X4: the environment of the local toolchain goes with its target.
    Off the musl platforms the environment is the one of the process; on
    them [RUSTFLAGS] is the inherited value followed by the linker flag
    (extended, not replaced), [TARGET_CC] and
    [CC_x86_64_unknown_linux_musl] name the same linker, and every other
    variable is inherited as it is. *)
Theorem local_env_follows_target `{Host} :
  (is_musl = false -> finalEnv = process_env)
  /\ (is_musl = true ->
      exists linker,
        finalEnv !! "RUSTFLAGS"
          = Some (env_or "RUSTFLAGS" "" +:+ " -Clinker=" +:+ linker)
        /\ finalEnv !! "TARGET_CC" = Some linker
        /\ finalEnv !! "CC_x86_64_unknown_linux_musl" = Some linker)
  /\ (forall k, k <> "RUSTFLAGS" -> k <> "TARGET_CC" ->
        k <> "CC_x86_64_unknown_linux_musl" ->
        finalEnv !! k = process_env !! k).
Proof.
  unfold finalEnv, platformEnv.
  destruct is_musl_cases as [[-> Hp]|[-> [Hd Hw]]].
  - split; [done|]. split.
    + intros _.
      assert (exists linker,
                 (if bool_decide (platform = "darwin")
                  then linker_env (env_or "RUSTFLAGS" "")
                         "x86_64-linux-musl-gcc"
                  else if bool_decide (platform = "windows")
                       then linker_env (env_or "RUSTFLAGS" "") "rust-lld"
                       else ∅)
                 = linker_env (env_or "RUSTFLAGS" "") linker) as [linker ->].
      { destruct Hp as [Hp|Hp]; rewrite Hp; cbn; eauto. }
      exists linker. unfold linker_env.
      repeat split; apply lookup_union_Some_l; by simplify_map_eq.
    + intros k H1 H2 H3. apply lookup_union_r. unfold linker_env.
      repeat case_bool_decide; by simplify_map_eq.
  - rewrite !bool_decide_eq_false_2 by done.
    rewrite (left_id_L ∅ (∪)). by repeat split.
Qed.

Example darwin_env :
  finalEnv (H := darwin_host) !! "RUSTFLAGS"
    = Some "-Dwarnings -Clinker=x86_64-linux-musl-gcc"
  /\ finalEnv (H := darwin_host) !! "HOME" = Some "/Users/dev"
  /\ local_finalArgs (H := darwin_host) (plugin ∅) None (VStr "pkg") VUndef
     = inr [VStr "build"; VStr "-p"; VStr "pkg"; VStr "--release";
            VStr "--target"; VStr "x86_64-unknown-linux-musl"].
Proof. repeat split; vm_compute; reflexivity. Qed.

(** ** localBuild and dockerBuild from end to end *)

(** X5: when the toolchain does not fail, the built binary can be read
    and the archive can be written, [localBuild] returns the empty object
    and has done exactly this, in order: logged, run [cargo] once, read
    the binary, created the target directory and written an archive whose
    only entry is named [bootstrap] and holds the bytes read. *)
Theorem localBuild_packages `{Host} this funcArgs cargoPackage b profile st
    args data :
  let h1 := events st ++ [Log "Running local cargo build"] in
  let h2 := h1 ++ [Spawn "cargo" args (Some finalEnv)] in
  let h3 := h2 ++ [ReadFile (built_binary b profile);
                   Mkdir (path_join ["target"; "lambda"; profile_dir profile])] in
  let zip := [{| entryName := "bootstrap"; content := data; comment := "";
                 attr := 755%N |}] in
  local_finalArgs this funcArgs cargoPackage profile = inr args ->
  failed (Spawned (spawnSync h1 "cargo" args (Some finalEnv))) = false ->
  readFileSync h2 (built_binary b profile) = inr data ->
  writeFileSync h3 (archive b profile) zip = None ->
  localBuild this funcArgs cargoPackage (VStr b) profile st
    = (Ret Packaged,
       {| service := service st;
          events := h3 ++ [WriteFile (archive b profile) zip] |}).
Proof.
  intros h1 h2 h3 zip Hargs Hok Hread Hwrite.
  unfold localBuild. rewrite Hargs. run. fold h1. rewrite Hok.
  unfold package_binary. run. fold h2 (built_binary b profile).
  rewrite Hread. run. fold (archive b profile) zip.
  replace ((h2 ++ [ReadFile (built_binary b profile)]) ++
           [Mkdir (path_join ["target"; "lambda"; profile_dir profile])])
    with h3 by (unfold h3; by rewrite <- app_assoc).
  by rewrite Hwrite.
Qed.

Lemma localBuild_packages_witness :
  let svc := mk_service (VStr "aws") VUndef [("hello", hello)] None in
  localBuild (H := plain_host) (plugin ∅) None (VStr "hello") (VStr "hello")
    (VStr "dev") (start svc)
  = (Ret Packaged,
     {| service := svc;
        events :=
          [Log "Running local cargo build";
           Spawn "cargo" [VStr "build"; VStr "-p"; VStr "hello"] (Some ∅);
           ReadFile "target/debug/hello";
           Mkdir "target/lambda/debug";
           WriteFile "target/lambda/debug/hello.zip"
             [{| entryName := "bootstrap"; content := "ELF"; comment := "";
                 attr := 755%N |}]] |}).
Proof.
  intros svc.
  exact (localBuild_packages (H := plain_host) (plugin ∅) None (VStr "hello")
           "hello" (VStr "dev") (start svc)
           [VStr "build"; VStr "-p"; VStr "hello"] "ELF"
           eq_refl eq_refl eq_refl eq_refl).
Defined.

(** X6: cargo flags that resolve to [true] stop the local build with a
    TypeError before anything is logged or run, because only strings have
    [split]; the container build goes on and hands the value over as
    [CARGO_FLAGS=true], followed by the package selector when it is given
    a package. *)
Theorem boolean_cargoFlags `{Host} this funcArgs cargoPackage binary profile st :
  override_or_custom this funcArgs "cargoFlags" = VBool true ->
  let flags :=
    "CARGO_FLAGS=true" +:+
      (if neq_undefined cargoPackage then " -p " +:+ to_str cargoPackage
       else "") in
  (exists e, localBuild this funcArgs cargoPackage binary profile st
               = (Throw (TypeError e), st))
  /\ docker_flagArgs this funcArgs cargoPackage = [VStr "-e"; VStr flags]
  /\ VStr flags ∈ docker_finalArgs this funcArgs cargoPackage binary profile
  /\ exists r evs,
       dockerBuild this funcArgs cargoPackage binary profile st
         = (Ret (Spawned r),
            {| service := service st;
               events :=
                 events st ++ evs ++
                   [Spawn (env_or "SLS_DOCKER_CLI" "docker")
                      (docker_finalArgs this funcArgs cargoPackage binary
                         profile) None] |}).
Proof.
  intros Hf flags.
  assert (docker_flagArgs this funcArgs cargoPackage
          = [VStr "-e"; VStr flags]) as Hflags.
  { unfold docker_flagArgs, docker_cargoFlags, flags. rewrite Hf.
    destruct (neq_undefined cargoPackage); [|done].
    cbn [truthy to_str]. by rewrite nonempty_app_l. }
  split; [|split; [done|split]].
  - eexists. unfold localBuild, local_finalArgs. by rewrite Hf.
  - unfold docker_finalArgs.
    rewrite !filter_truthy_app, filter_truthy_flagArgs, Hflags.
    rewrite !elem_of_app. right. left. right. right.
    apply elem_of_cons. right. apply elem_of_cons. by left.
  - eexists _, [_]. unfold dockerBuild. run. by rewrite <- app_assoc.
Qed.

Lemma boolean_cargoFlags_witness :
  let this := plugin (<["cargoFlags" := VBool true]> ∅) in
  let st := start (mk_service (VStr "aws") VUndef [("hello", hello)] None) in
  (exists e,
     localBuild (H := plain_host) this None (VStr "hello") (VStr "hello")
       VUndef st = (Throw (TypeError e), st))
  /\ docker_flagArgs this None (VStr "hello")
       = [VStr "-e"; VStr "CARGO_FLAGS=true -p hello"].
Proof.
  intros this st.
  destruct (boolean_cargoFlags (H := plain_host) this None (VStr "hello")
              (VStr "hello") VUndef st) as (Hl & Hd & _).
  - vm_compute; reflexivity.
  - split; [exact Hl|exact Hd].
Defined.

Lemma filter_truthy_is_arg (l : list value) :
  Forall (fun v => exists s, v = VStr s) l -> Forall is_arg (filter_truthy l).
Proof.
  induction 1 as [|v l [s ->] _ IH]; [constructor|]. cbn.
  destruct (nonempty s) eqn:E; [|done]. constructor; [by exists s|done].
Qed.

(** X7: the container build runs the container runtime once, with
    arguments that are all non-empty strings (no empty argument survives,
    as from doubled spaces in [SLS_DOCKER_ARGS]); it reads and writes no
    file, never throws, and returns what [spawnSync] returned. *)
Theorem dockerBuild_runs_once `{Host} this funcArgs cargoPackage binary
    profile st :
  let cli := env_or "SLS_DOCKER_CLI" "docker" in
  let args := docker_finalArgs this funcArgs cargoPackage binary profile in
  let h := events st ++ [Log "Running containerized build"] in
  Forall is_arg args
  /\ dockerBuild this funcArgs cargoPackage binary profile st
     = (Ret (Spawned (spawnSync h cli args None)),
        {| service := service st; events := h ++ [Spawn cli args None] |}).
Proof.
  intros cli args h. split; [|reflexivity].
  apply filter_truthy_is_arg.
  repeat (apply Forall_app; split).
  - unfold docker_defaultArgs. repeat constructor; eauto.
  - unfold docker_extraArgs. apply Forall_fmap, Forall_true. intros s. by exists s.
  - unfold docker_profileArgs. destruct (truthy profile); repeat constructor; eauto.
  - unfold docker_flagArgs. destruct (truthy _); repeat constructor; eauto.
  - repeat constructor; eauto.
Qed.

(** ** What a pass changes *)

(** One call of the callback either leaves the service as it is, and
    then a normal return means the function was skipped, or it stores the
    built function under its name. *)
Lemma build_function_step `{Host} this name found st r st' :
  build_function this name found st = (r, st') ->
  (service st' = service st
   /\ forall found', r = Ret found' ->
        exists f, service_functions (service st) !! name = Some f
                  /\ is_rust (service st) f = false)
  \/ (exists f, service_functions (service st) !! name = Some f
        /\ is_rust (service st) f = true
        /\ r = Ret true
        /\ service st' =
             set_function name
               (mark_built this (parsed_binary f)
                  (override_or_custom this (rust f) "profile") f)
               (service st)).
Proof.
  destruct (service_functions (service st) !! name) as [f|] eqn:Hf.
  - destruct (is_rust (service st) f) eqn:Hr.
    + rewrite (build_function_rust _ _ _ _ _ Hf Hr). cbn zeta.
      destruct (run_executor _ _ _ _ _) as [[res|e] st1] eqn:Hrun;
        destruct (run_executor_emits _ _ _ _ _ _ _ Hrun) as [Hs _];
        cbn in Hs.
      * destruct (failed res); intros [= <- <-].
        -- left. by split.
        -- right. exists f. by rewrite Hs.
      * intros [= <- <-]. left. by split.
    + rewrite (build_function_skip _ _ _ _ _ Hf Hr). intros [= <- <-].
      left. split; [done|]. intros found' _. by exists f.
  - unfold build_function, getFunction. run. rewrite Hf. run.
    intros [= <- <-]. left. by split.
Qed.

Lemma is_rust_provider_runtime (s s' : Service) (f : Func) :
  provider_runtime s' = provider_runtime s -> is_rust s' f = is_rust s f.
Proof. unfold is_rust, effective_runtime. by intros ->. Qed.

(** The loop keeps the frame of the service and its default runtime,
    and every function that is no target or that it skips. *)
Lemma forEach_frame `{Host} this names found st r st' :
  forEach (build_function this) names found st = (r, st') ->
  same_frame (service st) (service st')
  /\ provider_runtime (service st') = provider_runtime (service st)
  /\ forall name f,
       service_functions (service st) !! name = Some f ->
       name ∉ names \/ is_rust (service st) f = false ->
       service_functions (service st') !! name = Some f.
Proof.
  revert found st. induction names as [|n names IH]; intros found st.
  - intros [= <- <-]. by repeat split.
  - cbn [forEach]. unfold mbind, M_bind.
    destruct (build_function this n found st) as [[found1|e] st1] eqn:Hcb.
    + intros Hrest. destruct (IH _ _ Hrest) as ((F1 & F2 & F3 & F4) & Hrt & Hkeep).
      destruct (build_function_step _ _ _ _ _ _ Hcb)
        as [[Hs _]|(fn & Hfn & Hrn & _ & Hs)].
      * rewrite Hs in *. repeat split; try done.
        intros name f Hf Hcase. apply Hkeep; [done|].
        destruct Hcase as [Hnot|Hnr]; [left|by right].
        by apply not_elem_of_cons in Hnot as [_ ?].
      * rewrite Hs in *. cbn in *. repeat split; try done.
        intros name f Hf Hcase. apply Hkeep.
        -- rewrite lookup_insert_ne; [done|]. intros ->.
           destruct Hcase as [Hnot|Hnr].
           ++ apply not_elem_of_cons in Hnot as [? _]. done.
           ++ congruence.
        -- destruct Hcase as [Hnot|Hnr]; [left|by right].
           by apply not_elem_of_cons in Hnot as [_ ?].
    + intros [= <- <-].
      destruct (build_function_step _ _ _ _ _ _ Hcb)
        as [[Hs _]|(fn & _ & _ & [=] & _)].
      rewrite Hs. by repeat split.
Qed.

(** X8: whatever its outcome, a pass leaves alone every function that is
    no target of it or whose effective runtime is not the supported one,
    and of the rest of the service it changes at most the default
    runtime, from "rust" to "provided". *)
Theorem build_touches_only_rust_targets `{Host} this st :
  let svc' := service (build this st).2 in
  same_frame (service st) svc'
  /\ (provider_runtime svc' = provider_runtime (service st)
      \/ (provider_runtime (service st) = VStr RUST_RUNTIME
          /\ provider_runtime svc' = VStr BASE_RUNTIME))
  /\ forall name f,
       service_functions (service st) !! name = Some f ->
       name ∉ targets this (service st) \/ is_rust (service st) f = false ->
       service_functions svc' !! name = Some f.
Proof.
  intros svc'. subst svc'.
  destruct (eq_str (provider_name (service st)) "aws") eqn:Hp.
  - rewrite (build_supported _ _ Hp).
    destruct (forEach _ _ _ _) as [[found|e] st1] eqn:Hloop;
      destruct (forEach_frame _ _ _ _ _ _ Hloop) as (Hfr & Hrt & Hkeep).
    + assert (same_frame (service st)
                (rewrite_default_runtime (service st1))
              /\ (provider_runtime (rewrite_default_runtime (service st1))
                    = provider_runtime (service st)
                  \/ provider_runtime (service st) = VStr RUST_RUNTIME
                     /\ provider_runtime
                          (rewrite_default_runtime (service st1))
                        = VStr BASE_RUNTIME)
              /\ service_functions (rewrite_default_runtime (service st1))
                   = service_functions (service st1)) as (G1 & G2 & G3).
      { unfold rewrite_default_runtime. rewrite Hrt.
        destruct (eq_str (provider_runtime (service st)) RUST_RUNTIME) eqn:E.
        - apply eq_str_true in E. repeat split; try apply Hfr; auto.
        - repeat split; try apply Hfr; auto. }
      destruct found; cbn; (split; [done|split; [done|]]);
        intros name f Hf Hcase; rewrite G3; by apply Hkeep.
    + cbn. split; [done|]. split; [by left|done].
  - rewrite (build_unsupported_provider _ _ Hp). cbn.
    repeat split; auto.
Qed.

(** ** A second pass *)

Lemma runtime_after_not_rust (rt : value) :
  eq_str (runtime_after rt) RUST_RUNTIME = false.
Proof. unfold runtime_after. by destruct (eq_str rt RUST_RUNTIME) eqn:E. Qed.

Lemma settled_skipped (s : Service) (f : Func) :
  is_rust s f = false -> settled (provider_runtime s) f = true.
Proof.
  unfold is_rust, effective_runtime, settled, js_or.
  destruct (truthy (runtime f)); intros Hr; [by rewrite Hr|].
  by rewrite runtime_after_not_rust.
Qed.

Lemma settled_built `{Host} this binary profile (s : Service) (f : Func) :
  is_rust s f = true ->
  settled (provider_runtime s) (mark_built this binary profile f) = true.
Proof.
  unfold is_rust, effective_runtime, settled, js_or.
  rewrite mark_built_runtime. intros Hr.
  destruct (truthy (runtime f)) eqn:Ht.
  - by rewrite Hr.
  - destruct (eq_str (runtime f) RUST_RUNTIME) eqn:E.
    + apply eq_str_true in E. by rewrite E in Ht.
    + by rewrite Ht, runtime_after_not_rust.
Qed.

Lemma settled_not_rust (s : Service) (rt : value) (f : Func) :
  provider_runtime s = runtime_after rt ->
  settled rt f = true -> is_rust s f = false.
Proof.
  unfold is_rust, effective_runtime, settled. intros ->.
  by intros ->%negb_true_iff.
Qed.

(** Once settled, a function stays settled for the rest of the loop. *)
Lemma forEach_keeps_settled `{Host} this names found st r st' :
  forEach (build_function this) names found st = (r, st') ->
  forall n f,
    service_functions (service st) !! n = Some f ->
    settled (provider_runtime (service st)) f = true ->
    exists f', service_functions (service st') !! n = Some f'
               /\ settled (provider_runtime (service st)) f' = true.
Proof.
  revert found st. induction names as [|m names IH]; intros found st.
  - intros [= <- <-] n f Hf Hs. eauto.
  - cbn [forEach]. unfold mbind, M_bind.
    destruct (build_function this m found st) as [[found1|e] st1] eqn:Hcb.
    + intros Hrest n f Hf Hset.
      destruct (build_function_step _ _ _ _ _ _ Hcb)
        as [[Hs _]|(fm & Hfm & Hrm & _ & Hs)].
      * specialize (IH _ _ Hrest n f). rewrite Hs in IH. by apply IH.
      * assert (provider_runtime (service st1) = provider_runtime (service st))
          as Hrt by by rewrite Hs.
        destruct (decide (m = n)) as [->|Hne].
        -- edestruct (IH _ _ Hrest n) as (f' & Hf' & Hs').
           { rewrite Hs. cbn. apply lookup_insert_eq. }
           { rewrite Hrt. by apply settled_built. }
           exists f'. by rewrite <- Hrt.
        -- edestruct (IH _ _ Hrest n f) as (f' & Hf' & Hs').
           { rewrite Hs. cbn. by rewrite lookup_insert_ne. }
           { by rewrite Hrt. }
           exists f'. by rewrite <- Hrt.
    + intros [= <- <-] n f Hf Hset.
      destruct (build_function_step _ _ _ _ _ _ Hcb)
        as [[Hs _]|(fn & _ & _ & [=] & _)].
      rewrite Hs. eauto.
Qed.

(** A loop that ran to its end has settled every name it went through. *)
Lemma forEach_settles `{Host} this names found st found' st' :
  forEach (build_function this) names found st = (Ret found', st') ->
  forall n, n ∈ names ->
    exists f', service_functions (service st') !! n = Some f'
               /\ settled (provider_runtime (service st)) f' = true.
Proof.
  revert found st. induction names as [|m names IH]; intros found st.
  - intros _ n Hn. by apply elem_of_nil in Hn.
  - cbn [forEach]. unfold mbind, M_bind.
    destruct (build_function this m found st) as [[found1|e] st1] eqn:Hcb;
      [|done].
    intros Hrest n Hn.
    assert (provider_runtime (service st1) = provider_runtime (service st)
            /\ exists fm, service_functions (service st1) !! m = Some fm
                 /\ settled (provider_runtime (service st)) fm = true)
      as (Hrt & fm & Hfm & Hsm).
    { destruct (build_function_step _ _ _ _ _ _ Hcb)
        as [[Hs Hskip]|(fm & Hfm & Hrm & _ & Hs)].
      - destruct (Hskip _ eq_refl) as (fm & Hfm & Hrm). rewrite Hs.
        split; [done|]. exists fm. split; [done|]. by apply settled_skipped.
      - rewrite Hs. split; [done|]. eexists. split.
        + cbn. apply lookup_insert_eq.
        + by apply settled_built. }
    apply elem_of_cons in Hn as [->|Hn].
    + rewrite <- Hrt in Hsm.
      destruct (forEach_keeps_settled _ _ _ _ _ _ Hrest _ _ Hfm Hsm)
        as (f' & Hf' & Hs').
      exists f'. by rewrite <- Hrt.
    + destruct (IH _ _ Hrest n Hn) as (f' & Hf' & Hs').
      exists f'. by rewrite <- Hrt.
Qed.

(** X9: on the supported provider, after a pass that returned normally a
    second pass over the service as the first left it builds nothing and
    throws the "no Rust functions found" error: every function the first
    pass built now has the effective runtime "provided". *)
Theorem build_twice `{Host} this st st' :
  eq_str (provider_name (service st)) "aws" = true ->
  build this st = (Ret tt, st') ->
  build this st' = (Throw no_rust_functions, st').
Proof.
  intros Hp Hbuild. rewrite (build_supported _ _ Hp) in Hbuild.
  destruct (forEach _ _ _ _) as [[found|e] st1] eqn:Hloop; [|done].
  destruct found; [|done]. injection Hbuild as <-.
  destruct (forEach_frame _ _ _ _ _ _ Hloop) as ((F1 & F2 & F3 & F4) & Hrt & _).
  set (svc' := rewrite_default_runtime (service st1)).
  assert (provider_runtime svc' = runtime_after (provider_runtime (service st))
          /\ service_functions svc' = service_functions (service st1)
          /\ provider_name svc' = provider_name (service st)
          /\ function_names svc' = function_names (service st))
    as (G1 & G2 & G3 & G4).
  { unfold svc', rewrite_default_runtime, runtime_after. rewrite Hrt.
    by destruct (eq_str (provider_runtime (service st)) RUST_RUNTIME). }
  assert (rewrite_default_runtime svc' = svc') as Hidem.
  { unfold rewrite_default_runtime at 1.
    by rewrite G1, runtime_after_not_rust. }
  assert (targets this svc' = targets this (service st)) as Htargets.
  { unfold targets. by rewrite G4. }
  rewrite build_supported by (cbn; by rewrite G3). cbn [service events].
  rewrite forEach_skip; [cbn; by rewrite Hidem|]. cbn [service].
  rewrite Htargets. apply Forall_forall. intros n Hn.
  destruct (forEach_settles _ _ _ _ _ _ Hloop n Hn) as (f' & Hf' & Hs').
  exists f'. split; [by rewrite G2|]. by apply (settled_not_rust _ _ _ G1).
Qed.

Lemma build_twice_witness :
  let svc := mk_service (VStr "aws") (VStr "rust")
               [("n", node_fn); ("hello", hello); ("world", world)] None in
  let st' := (build (H := leaky_host 0) (plugin ∅) (start svc)).2 in
  build (H := leaky_host 0) (plugin ∅) st' = (Throw no_rust_functions, st').
Proof.
  intros svc st'.
  apply (build_twice (H := leaky_host 0) (plugin ∅) (start svc) st').
  - reflexivity.
  - vm_compute; reflexivity.
Defined.

(** ** Results the pass misreads *)



(** [localBuild] when only the write of the archive fails. *)
Lemma localBuild_write_failure `{Host} this funcArgs cargoPackage b profile st
    args data err :
  let h1 := events st ++ [Log "Running local cargo build"] in
  let h2 := h1 ++ [Spawn "cargo" args (Some finalEnv)] in
  let h3 := h2 ++ [ReadFile (built_binary b profile);
                   Mkdir (path_join ["target"; "lambda"; profile_dir profile])] in
  let zip := [{| entryName := "bootstrap"; content := data; comment := "";
                 attr := 755%N |}] in
  local_finalArgs this funcArgs cargoPackage profile = inr args ->
  failed (Spawned (spawnSync h1 "cargo" args (Some finalEnv))) = false ->
  readFileSync h2 (built_binary b profile) = inr data ->
  writeFileSync h3 (archive b profile) zip = Some err ->
  localBuild this funcArgs cargoPackage (VStr b) profile st
    = (Ret (ZipFailed err),
       {| service := service st;
          events := h3 ++ [WriteFile (archive b profile) zip;
                           Log ("Error zipping artifact " +:+ exn_str err)] |}).
Proof.
  intros h1 h2 h3 zip Hargs Hok Hread Hwrite.
  unfold localBuild. rewrite Hargs. run. fold h1. rewrite Hok.
  unfold package_binary. run. fold h2 (built_binary b profile).
  rewrite Hread. run. fold (archive b profile) zip.
  replace ((h2 ++ [ReadFile (built_binary b profile)]) ++
           [Mkdir (path_join ["target"; "lambda"; profile_dir profile])])
    with h3 by (unfold h3; by rewrite <- app_assoc).
  rewrite Hwrite. cbn. by rewrite <- app_assoc.
Qed.

(** X11: when the local build fails only in writing the archive, the
    pass throws an error with an empty message, whatever the I/O error
    was, and its failure line reads "undefined 1": the result object
    carries the error under [err], the pass reads [error].  The function
    is left as it was. *)
Theorem write_failure_loses_its_error `{Host} this name found st func g b args
    data err :
  let profile := override_or_custom this (rust func) "profile" in
  let h0 := events st ++ [Log (building_msg func)] in
  let h1 := h0 ++ [Log "Running local cargo build"] in
  let h2 := h1 ++ [Spawn "cargo" args (Some finalEnv)] in
  let h3 := h2 ++ [ReadFile (built_binary b profile);
                   Mkdir (path_join ["target"; "lambda"; profile_dir profile])] in
  let zip := [{| entryName := "bootstrap"; content := data; comment := "";
                 attr := 755%N |}] in
  service_functions (service st) !! name = Some func ->
  is_rust (service st) func = true ->
  globalThis !! "cargoPackage" = Some g ->
  truthy (buildLocally this func) = true ->
  parsed_binary func = VStr b ->
  local_finalArgs this (rust func) g profile = inr args ->
  failed (Spawned (spawnSync h1 "cargo" args (Some finalEnv))) = false ->
  readFileSync h2 (built_binary b profile) = inr data ->
  writeFileSync h3 (archive b profile) zip = Some err ->
  build_function this name found st =
    (Throw (Error ""),
     {| service := service st;
        events :=
          h3 ++ [WriteFile (archive b profile) zip;
                 Log ("Error zipping artifact " +:+ exn_str err);
                 Log "Rust build encountered an error: undefined 1."] |}).
Proof.
  intros profile h0 h1 h2 h3 zip Hf Hr Hg Hl Hb Hargs Hok Hread Hwrite.
  rewrite (build_function_rust _ _ _ _ _ Hf Hr). cbn zeta.
  unfold run_executor, free_ident. rewrite Hl, Hg, Hb.
  change ((mret g ≫= fun cargoPackage =>
             localBuild this (rust func) cargoPackage (VStr b)
               (override_or_custom this (rust func) "profile"))
            (log_event (building_msg func) st))
    with (localBuild this (rust func) g (VStr b) profile
            (log_event (building_msg func) st)).
  rewrite (localBuild_write_failure this (rust func) g b profile
             (log_event (building_msg func) st) args data err
             Hargs Hok Hread Hwrite).
  cbn. unfold log_event. cbn. by rewrite <- app_assoc.
Qed.

Lemma write_failure_loses_its_error_witness :
  let H := leaky_host_with (exit_with 0) (inr "ELF")
             (Some (SystemError "ENOSPC")) in
  let svc := mk_service (VStr "aws") VUndef [("hello", hello)] None in
  let this := plugin (<["dockerless" := VBool true]> ∅) in
  exists evs,
    build_function (H := H) this "hello" false (start svc)
      = (Throw (Error ""), {| service := svc; events := evs |})
    /\ Log "Error zipping artifact Error: ENOSPC" ∈ evs
    /\ last evs = Some (Log "Rust build encountered an error: undefined 1.").
Proof.
  intros H svc this. eexists. split.
  - apply (write_failure_loses_its_error (H := H) this "hello" false
             (start svc) hello (VStr "leaked") "hello"
             [VStr "build"; VStr "-p"; VStr "leaked"; VStr "--release"] "ELF"
             (SystemError "ENOSPC")); vm_compute; reflexivity.
  - split; [|vm_compute; reflexivity].
    apply list_elem_of_In. vm_compute. tauto.
Defined.

(** ** The profile and the constructor *)

(** X12: the directory segment is [debug] for the profile "dev" and
    nothing else, and [release] for every other value; the artifact path
    that [build] registers uses the same segment as the archive that
    [localBuild] writes.  A truthy profile other than "dev" (say "debug")
    is still handed to the container as [PROFILE], while the artifact is
    expected under [release]. *)
Theorem profile_directory (profile : value) :
  (profile_dir profile = "debug" <-> profile = VStr "dev")
  /\ (profile <> VStr "dev" -> profile_dir profile = "release")
  /\ (forall (H : Host) this b,
        artifactPath this b profile =
          path_join [dockerPath this;
                     "target/lambda/" +:+ profile_dir profile;
                     to_str b +:+ ".zip"])
  /\ (truthy profile = true ->
      docker_profileArgs profile
        = [VStr "-e"; VStr ("PROFILE=" +:+ to_str profile)]).
Proof.
  unfold profile_dir, artifactPath, docker_profileArgs.
  destruct (eq_str profile "dev") eqn:E.
  - apply eq_str_true in E as ->. by repeat split.
  - assert (profile <> VStr "dev") as Hne.
    { intros ->. by rewrite (proj2 (eq_str_true _ _) eq_refl) in E. }
    repeat split; try done. by intros ->.
Qed.

Example profile_debug_is_release :
  profile_dir (VStr "debug") = "release"
  /\ docker_profileArgs (VStr "debug") = [VStr "-e"; VStr "PROFILE=debug"]
  /\ artifactPath (H := plain_host) (plugin ∅) (VStr "hello") (VStr "debug")
     = "/srv/target/lambda/release/hello.zip".
Proof. repeat split; vm_compute; reflexivity. Qed.

Lemma Object_assign_empty (target : obj) : Object_assign target ∅ = target.
Proof. unfold Object_assign. apply (left_id_L ∅ (∪)). Qed.

(** X13: for a service without a [custom.rust] block and a service path
    that is a non-empty string, the constructor gives the plugin the four
    built-in settings, resolves the docker path from the service path,
    and changes nothing of the service but [excludeDevDependencies], which
    it sets to [false]; it logs and runs nothing.  A global [dockerPath]
    that is [true] makes it throw a TypeError and leaves the service as it
    was. *)
Theorem constructor_outcomes `{Host} sp opt st :
  (custom_rust (service st) = None -> truthy (VStr sp) = true ->
   constructor (VStr sp) opt st =
     (Ret {| options_function := opt;
             servicePath := VStr sp;
             custom := custom_defaults;
             dockerPath := path_resolve sp |},
      {| service := set_excludeDevDependencies (VBool false) (service st);
         events := events st |}))
  /\ (forall v, get_opt (custom_rust (service st)) "dockerPath" = VBool true ->
        constructor v opt st =
          (Throw (TypeError "The paths[0] argument must be of type string"),
           st)).
Proof.
  split.
  - intros Hc Hsp. unfold constructor. run. rewrite Hc. cbn [default].
    rewrite Object_assign_empty. unfold js_or. rewrite Hsp.
    change (truthy (get custom_defaults "dockerPath")) with false. by cbn.
  - intros v Hd. unfold constructor. run.
    rewrite get_Object_assign. unfold get_opt, get in Hd.
    destruct (default ∅ (custom_rust (service st)) !! "dockerPath") as [d|];
      [|done].
    cbn in Hd. subst d. done.
Qed.

Lemma constructor_outcomes_witness :
  let svc := mk_service (VStr "aws") VUndef [("hello", hello)] None in
  constructor (H := plain_host) (VStr "/srv") (Some "hello") (start svc)
  = (Ret {| options_function := Some "hello"; servicePath := VStr "/srv";
            custom := custom_defaults; dockerPath := "/srv" |},
     start (set_excludeDevDependencies (VBool false) svc)).
Proof.
  intros svc.
  by apply (constructor_outcomes (H := plain_host) "/srv" (Some "hello")
              (start svc)).
Defined.
